(** * llama_toolchain/cli/api/build.py: dependency merging, dependency
    parsing and the [llama api build] command.

    The development embeds the three functions of [build.py]
    ([get_dependencies], [parse_dependencies], [_run_api_build_command])
    together with the few Python primitives they rely on ([str.strip],
    [str.split], [str.replace], [str.join], [dict] insertion, in-place
    [list.extend]) and proves properties of them.

    Python strings are modelled by [string]; a character stands for a code
    point below 256.  Python lists that are reachable from a provider
    specification are heap objects: a specification holds a location, and
    [list.extend] updates the store at that location. *)

From Stdlib Require Import String Ascii List ZArith Lia Bool.
From stdpp Require Import base option list gmap strings.
Import ListNotations.

Local Open Scope string_scope.
Local Open Scope list_scope.

(** ** Python string primitives *)

Module Py.

(** [str.isspace] on a single code point below 256: U+0009..U+000D,
    U+001C..U+0020, U+0085 and U+00A0. *)
Definition isspace (c : ascii) : bool :=
  let n := nat_of_ascii c in
  ((9 <=? n)%nat && (n <=? 13)%nat)
  || ((28 <=? n)%nat && (n <=? 32)%nat)
  || (n =? 133)%nat || (n =? 160)%nat.

(** [s.lstrip()] *)
Fixpoint lstrip (s : string) : string :=
  match s with
  | EmptyString => EmptyString
  | String c r => if isspace c then lstrip r else s
  end.

(** [s.rstrip()] *)
Fixpoint rstrip (s : string) : string :=
  match s with
  | EmptyString => EmptyString
  | String c r =>
      match rstrip r with
      | EmptyString => if isspace c then EmptyString else String c EmptyString
      | r' => String c r'
      end
  end.

(** [s.strip()] *)
Definition strip (s : string) : string := rstrip (lstrip s).

(** [s.split(sep)] for a separator [sep] of one character.  The result is
    never empty: [''.split(',') == ['']]. *)
Fixpoint split (sep : ascii) (s : string) : list string :=
  match s with
  | EmptyString => [EmptyString]
  | String c r =>
      if Ascii.eqb c sep then EmptyString :: split sep r
      else match split sep r with
           | h :: t => String c h :: t
           | [] => [String c EmptyString]
           end
  end.

(** [sep.join(l)] *)
Fixpoint join (sep : string) (l : list string) : string :=
  match l with
  | [] => EmptyString
  | [x] => x
  | x :: r => x ++ sep ++ join sep r
  end.

(** [s.startswith(p)] *)
Fixpoint startswith (p s : string) : bool :=
  match p, s with
  | EmptyString, _ => true
  | String a p', String b s' => Ascii.eqb a b && startswith p' s'
  | String _ _, EmptyString => false
  end.

(** [s.replace(old, new)] for a non-empty [old]: the occurrences of [old]
    are found from left to right and do not overlap.  [skip] counts the
    characters of an occurrence that are still to be dropped. *)
Fixpoint replace_from (old new : string) (skip : nat) (s : string) : string :=
  match s with
  | EmptyString => EmptyString
  | String c r =>
      match skip with
      | S k => replace_from old new k r
      | O =>
          if startswith old s
          then new ++ replace_from old new (String.length old - 1) r
          else String c (replace_from old new 0 r)
      end
  end.

Definition replace (old new s : string) : string := replace_from old new 0 s.

(** [p in s] for strings *)
Fixpoint contains (p s : string) : bool :=
  startswith p s
  || match s with
     | EmptyString => false
     | String _ r => contains p r
     end.

(** [c in s] for a character [c] *)
Fixpoint has_char (c : ascii) (s : string) : bool :=
  match s with
  | EmptyString => false
  | String d r => Ascii.eqb d c || has_char c r
  end.

(** Every character of [s] is white space ([s] may be empty). *)
Fixpoint all_space (s : string) : bool :=
  match s with
  | EmptyString => true
  | String c r => isspace c && all_space r
  end.

(** Truth value of a [str]: the empty string is false. *)
Definition truthy (s : string) : bool :=
  match s with EmptyString => false | String _ _ => true end.

(** Truth value of an [Optional[str]]: [None] and [''] are false. *)
Definition truthy_opt (o : option string) : bool :=
  match o with Some s => truthy s | None => false end.

(** [o or d] for [o : Optional[str]] and [d : str]. *)
Definition or_else (o : option string) (d : string) : string :=
  match o with
  | Some s => if truthy s then s else d
  | None => d
  end.

End Py.

(** ** Exceptions *)

(** The exceptions the module can leave through.  [UsageError msg] stands for
    [parser.error(msg)] of argparse: the usage text and [msg] are printed and
    the process exits with status 2; it is the only way the module reports a
    problem to the user as a usage error.  Every other constructor is an
    exception that escapes the command uncaught. *)
Inductive exn : Type :=
| ValueError (msg : string)
| KeyError (key : string)
| AssertionError
| NameError (name : string)
| UsageError (msg : string).

(** A computation that either raises or returns. *)
Definition result (A : Type) : Type := exn + A.

Definition is_usage_error {A} (r : result A) : bool :=
  match r with inl (UsageError _) => true | _ => false end.

Definition is_ok {A} (r : result A) : bool :=
  match r with inr _ => true | inl _ => false end.

(** ** Data model *)

(** Locations of Python list objects. *)
Definition loc : Type := nat.

(** Modelled from the spec: the classes [Api], [AdapterSpec],
    [InlineProviderSpec] and [RemoteProviderSpec] of
    [llama_toolchain.distribution.datatypes], which [build.py] imports.  An
    inline specification carries a list of package requirements and an
    optional container base image; a remote specification may carry an
    adapter with a package list of its own and never carries an image.  The
    package lists are Python list objects, so a specification holds the
    location of its list.  A member of the enumeration [Api] is identified by
    its value. *)
Abbreviation Api := string.

Record AdapterSpec : Type := { adapter_pip_packages : loc }.

Inductive ProviderSpec : Type :=
| InlineProviderSpec (pip_packages : loc) (docker_image : option string)
| RemoteProviderSpec (adapter : option AdapterSpec).

(** [class Dependencies(BaseModel)]: the model validates its fields when it
    is built, so it holds its own copy of the package list. *)
Record Dependencies : Type := {
  pip_packages : list string;
  docker_image : option string
}.

(** The store of list objects.  A location outside the store reads as the
    empty list. *)
Definition list_at (σ : gmap loc (list string)) (l : loc) : list string :=
  default [] (σ !! l).

(** [a.extend(b)] for the lists at [a] and [b]; [a.extend(a)] doubles [a]. *)
Definition list_extend (a b : loc) (σ : gmap loc (list string))
  : gmap loc (list string) :=
  <[a := list_at σ a ++ list_at σ b]> σ.

(** ** [get_dependencies] *)

(** The inner function [_deps]: the package list object and the image of a
    provider.  A remote provider without adapter gives a new empty list. *)
Definition _deps (provider : ProviderSpec) (σ : gmap loc (list string))
  : (loc * option string) * gmap loc (list string) :=
  match provider with
  | InlineProviderSpec pkgs img => ((pkgs, img), σ)
  | RemoteProviderSpec (Some a) => ((adapter_pip_packages a, None), σ)
  | RemoteProviderSpec None =>
      let l := fresh (dom σ) in ((l, None), <[l := []]> σ)
  end.

Definition conflict_message : string :=
  "You can only have the root provider specify a docker image".

(** The loop [for dep in dependencies.values(): ...] of [get_dependencies],
    with the root's list object and image already extracted. *)
Fixpoint extend_with (pip_packages : loc) (docker_image : option string)
    (deps : list ProviderSpec) (σ : gmap loc (list string))
  : result unit * gmap loc (list string) :=
  match deps with
  | [] => (inr tt, σ)
  | dep :: rest =>
      let '((dep_pip_packages, dep_docker_image), σ1) := _deps dep σ in
      if Py.truthy_opt docker_image && Py.truthy_opt dep_docker_image
      then (inl (ValueError conflict_message), σ1)
      else extend_with pip_packages docker_image rest
             (list_extend pip_packages dep_pip_packages σ1)
  end.

(** [get_dependencies(provider, dependencies)]; [dependencies] is a [dict],
    given by its items in iteration order. *)
Definition get_dependencies (provider : ProviderSpec)
    (dependencies : list (Api * ProviderSpec)) (σ : gmap loc (list string))
  : result Dependencies * gmap loc (list string) :=
  let '((pip_packages, docker_image), σ0) := _deps provider σ in
  match extend_with pip_packages docker_image (map snd dependencies) σ0 with
  | (inl e, σ1) => (inl e, σ1)
  | (inr _, σ1) =>
      (inr {| pip_packages := list_at σ1 pip_packages;
              docker_image := docker_image |}, σ1)
  end.

(** ** Python dictionaries with [Api] keys *)

(** A [dict] keeps its items in insertion order.  [d[k] = v] replaces the
    value of a key that is present, leaving the key where it is, and appends
    a new item otherwise. *)
Fixpoint dict_set {V : Type} (k : Api) (v : V) (d : list (Api * V))
  : list (Api * V) :=
  match d with
  | [] => [(k, v)]
  | (k', v') :: r =>
      if String.eqb k' k then (k', v) :: r else (k', v') :: dict_set k v r
  end.

(** [d.get(k)] *)
Fixpoint dict_get {V : Type} (k : Api) (d : list (Api * V)) : option V :=
  match d with
  | [] => None
  | (k', v') :: r => if String.eqb k' k then Some v' else dict_get k r
  end.

(** ** [parse_dependencies] *)

Section Registry.

(** Modelled from the spec: the enumeration [Api] of
    [llama_toolchain.distribution.datatypes] and the function
    [api_providers()] of [llama_toolchain.distribution.distribution], which
    gives for each API the mapping of provider identifier to provider
    specification.  [Api_values] lists the values of the members of [Api];
    [api_providers] is the mapping the function returns. *)
Variable Api_values : list string.
Variable api_providers : gmap Api (gmap string ProviderSpec).

(** [Api(s)]: the member of the enumeration whose value is [s]. *)
Definition Api_of (s : string) : result Api :=
  if decide (s ∈ Api_values) then inr s
  else inl (ValueError ("'" ++ s ++ "' is not a valid Api")).

(** [str(api)] of a member of [Api], as an f-string formats it. *)
Definition Api_str (api : Api) : string := "Api." ++ api.

Definition not_available (provider : string) (api : Api) : string :=
  "Provider `" ++ provider ++ "` is not available for API `"
  ++ Api_str api ++ "`".

(** One round of the loop of [parse_dependencies] on the entry [dep], with
    the dictionary [deps] built so far. *)
Definition parse_dependency (dep : string) (deps : list (Api * ProviderSpec))
  : result (list (Api * ProviderSpec)) :=
  let dep := Py.strip dep in
  if negb (Py.truthy dep) then inr deps
  else
    match Py.split "=" dep with
    | [api_str; provider] =>
        match Api_of api_str with
        | inl e => inl e
        | inr api =>
            let provider := Py.strip provider in
            match api_providers !! api with
            | None => inl (KeyError (Api_str api))
            | Some providers =>
                match providers !! provider with
                | None => inl (UsageError (not_available provider api))
                | Some spec => inr (dict_set api spec deps)
                end
            end
        end
    | [_] => inl (ValueError "not enough values to unpack (expected 2, got 1)")
    | _ => inl (ValueError "too many values to unpack (expected 2)")
    end.

(** The loop [for dep in dependencies.split(","): ...]; it ends at the
    first entry that raises. *)
Fixpoint parse_entries (entries : list string)
    (deps : list (Api * ProviderSpec))
  : result (list (Api * ProviderSpec)) :=
  match entries with
  | [] => inr deps
  | dep :: rest =>
      match parse_dependency dep deps with
      | inl e => inl e
      | inr deps' => parse_entries rest deps'
      end
  end.

(** [parse_dependencies(dependencies, parser)] *)
Definition parse_dependencies (dependencies : string)
  : result (list (Api * ProviderSpec)) :=
  parse_entries (Py.split "," dependencies) [].

(** *** The parser in the words of its description

    The input is a list of entries separated by commas; each entry is
    trimmed and the blank ones are dropped; each remaining entry is a pair
    [api=provider] that is resolved against the registry; the mapping holds
    the resolved pairs in the order they were listed. *)

Definition listed_entries (dependencies : string) : list string :=
  List.filter Py.truthy (map Py.strip (Py.split "," dependencies)).

Definition resolve_pair (entry : string) : result (Api * ProviderSpec) :=
  match Py.split "=" entry with
  | [api_str; provider] =>
      match Api_of api_str with
      | inl e => inl e
      | inr api =>
          match api_providers !! api with
          | None => inl (KeyError (Api_str api))
          | Some providers =>
              match providers !! Py.strip provider with
              | None =>
                  inl (UsageError (not_available (Py.strip provider) api))
              | Some spec => inr (api, spec)
              end
          end
      end
  | [_] => inl (ValueError "not enough values to unpack (expected 2, got 1)")
  | _ => inl (ValueError "too many values to unpack (expected 2)")
  end.

(** The pairs of all entries, or the error of the first entry that has
    one. *)
Fixpoint resolve_all (entries : list string)
  : result (list (Api * ProviderSpec)) :=
  match entries with
  | [] => inr []
  | entry :: rest =>
      match resolve_pair entry with
      | inl e => inl e
      | inr kv =>
          match resolve_all rest with
          | inl e => inl e
          | inr kvs => inr (kv :: kvs)
          end
      end
  end.

(** The dictionary that receives the items in order, starting from [d]. *)
Definition dict_update {V : Type} (d items : list (Api * V))
  : list (Api * V) :=
  fold_left (fun d kv => dict_set kv.1 kv.2 d) items d.

Definition parse_as_described (dependencies : string)
  : result (list (Api * ProviderSpec)) :=
  match resolve_all (listed_entries dependencies) with
  | inl e => inl e
  | inr items => inr (dict_update [] items)
  end.

(** *** Well-formed dependency strings *)

(** A pair as it is written: white space, the API, ["="], white space, the
    provider identifier, white space. *)
Record written_pair : Type := {
  wp_lead : string;
  wp_api : Api;
  wp_gap : string;
  wp_provider : string;
  wp_trail : string
}.

(** An entry of the list: a pair or a run of white space. *)
Inductive written : Type :=
| Blank (w : string)
| Pair (p : written_pair).

Definition render (x : written) : string :=
  match x with
  | Blank w => w
  | Pair p =>
      wp_lead p ++ wp_api p ++ "=" ++ wp_gap p ++ wp_provider p ++ wp_trail p
  end.

(** The provider a written pair names, when the API is a member of [Api]
    and the provider is registered for it. *)
Definition registered (p : written_pair) : option (Api * ProviderSpec) :=
  if decide (wp_api p ∈ Api_values) then
    providers ← api_providers !! wp_api p;
    spec ← providers !! wp_provider p;
    Some (wp_api p, spec)
  else None.

(** The paddings are white space; the API and the provider identifier hold
    no comma and no equals sign; the API does not start with white space and
    the provider identifier neither starts nor ends with white space. *)
Definition well_written (x : written) : Prop :=
  match x with
  | Blank w => Py.all_space w = true
  | Pair p =>
      Py.all_space (wp_lead p) = true
      /\ Py.all_space (wp_gap p) = true
      /\ Py.all_space (wp_trail p) = true
      /\ Py.has_char "," (wp_api p) = false
      /\ Py.has_char "=" (wp_api p) = false
      /\ Py.has_char "," (wp_provider p) = false
      /\ Py.has_char "=" (wp_provider p) = false
      /\ Py.lstrip (wp_api p) = wp_api p
      /\ Py.lstrip (wp_provider p) = wp_provider p
      /\ Py.rstrip (wp_provider p) = wp_provider p
  end.

Definition pairs_of (l : list written) : list written_pair :=
  omap (fun x => match x with Pair p => Some p | Blank _ => None end) l.

End Registry.

(** ** The build descriptor *)

(** The values of the dictionary [stub_config]: each is the dictionary
    [{"provider_id": v}], where [v] is a provider identifier for the root API
    and the object taken from [provider_deps] for an auxiliary API. *)
Inductive provider_ref : Type :=
| RefId (provider_id : string)
| RefSpec (spec : ProviderSpec).

(** The keys of [stub_config]: the string [api.value] for the root API and
    the member of [Api] itself for an auxiliary API. *)
Inductive config_key : Type :=
| KeyStr (s : string)
| KeyApi (api : Api).

(** Modelled from the spec: the class [PackageConfig] of
    [llama_toolchain.distribution.datatypes], with its fields in the order
    the descriptor has them: build timestamp, package name, image name,
    environment name, provider mapping. *)
Record PackageConfig : Type := {
  pc_built_at : Z;
  pc_package_name : string;
  pc_docker_image : option string;
  pc_conda_env : option string;
  pc_providers : list (config_key * provider_ref)
}.

(** The values of the document that is serialized. *)
Inductive field_value : Type :=
| VNone
| VStr (s : string)
| VDatetime (t : Z)
| VProviders (ps : list (config_key * provider_ref)).

Definition of_optional (o : option string) : field_value :=
  match o with Some s => VStr s | None => VNone end.

(** [c.dict()]: every field of the model, in declaration order; a field that
    is [None] is kept, with the value [None]. *)
Definition PackageConfig_dict (c : PackageConfig)
  : list (string * field_value) :=
  [ ("built_at", VDatetime (pc_built_at c));
    ("package_name", VStr (pc_package_name c));
    ("docker_image", of_optional (pc_docker_image c));
    ("conda_env", of_optional (pc_conda_env c));
    ("providers", VProviders (pc_providers c)) ].

(** [d.get(k)] on a document. *)
Fixpoint field (k : string) (d : list (string * field_value))
  : option field_value :=
  match d with
  | [] => None
  | (k', v) :: r => if String.eqb k' k then Some v else field k r
  end.

(** ** The world of the command *)

(** What the command does to its surroundings, in the order it does it.
    [WriteFile path doc] is [f.write(yaml.dump(doc, sort_keys=False))] on
    the file opened at [path] for writing; the YAML text is a function of
    [doc], so the event records [doc]. *)
Inductive event : Type :=
| MakeDirs (path : string)
| WriteFile (path : string) (doc : list (string * field_value))
| RunWithPty (argv : list string)
| CPrint (text : string) (color : string).

Record world : Type := {
  heap : gmap loc (list string);
  trace : list event
}.

(** Computations of the command: they read and change the world and either
    raise or return. *)
Definition M (A : Type) : Type := world -> result A * world.

Definition ret {A} (a : A) : M A := fun w => (inr a, w).

Definition raise {A} (e : exn) : M A := fun w => (inl e, w).

Definition bind {A B} (m : M A) (k : A -> M B) : M B :=
  fun w =>
    match m w with
    | (inl e, w') => (inl e, w')
    | (inr a, w') => k a w'
    end.

Notation "x <- m ;; k" := (bind m (fun x => k))
  (at level 100, m at next level, right associativity).
Notation "m ;;; k" := (bind m (fun _ => k))
  (at level 100, right associativity).

Definition emit (e : event) : M unit :=
  fun w => (inr tt, {| heap := heap w; trace := trace w ++ [e] |}).

Definition lift {A} (r : result A) : M A := fun w => (r, w).

Definition on_heap {A}
    (f : gmap loc (list string) -> result A * gmap loc (list string)) : M A :=
  fun w =>
    let '(r, σ) := f (heap w) in (r, {| heap := σ; trace := trace w |}).

(** [m[k]] on a [dict]; a missing key raises [KeyError]. *)
Definition getitem {V} (m : gmap string V) (k : string) : M V :=
  match m !! k with
  | Some v => ret v
  | None => raise (KeyError k)
  end.

(** ** The command [llama api build] *)

(** [class BuildType(Enum)] *)
Inductive BuildType : Type := container | conda_env.

Definition BuildType_value (t : BuildType) : string :=
  match t with container => "container" | conda_env => "conda_env" end.

(** The parsed command line, [args : argparse.Namespace]. *)
Record Namespace : Type := {
  args_api : string;
  args_provider : string;
  args_dependencies : option string;
  args_name : option string;
  args_type : string
}.

(** [string.ascii_letters + string.digits] *)
Definition alphabet : string :=
  "abcdefghijklmnopqrstuvwxyzABCDEFGHIJKLMNOPQRSTUVWXYZ" ++ "0123456789".

(** [base / part] on paths, for a relative [part]. *)
Definition path_join (base part : string) : string := base ++ "/" ++ part.

(** Lines 155-159: the name of the package, from [args.type],
    [args.provider] and the resolved name. *)
Definition package_name_of (type provider name : string) : string :=
  let package_name :=
    (if String.eqb type (BuildType_value container)
     then "image-" ++ provider ++ "-" ++ name
     else "env-" ++ provider ++ "-" ++ name)%string in
  Py.replace "::" "-" package_name.

Definition default_image : string := "python:3.10-slim".

Section Command.

Variable Api_values : list string.
Variable api_providers : gmap Api (gmap string ProviderSpec).

(** [BUILDS_BASE_DIR] of [llama_toolchain.common.config_dirs]. *)
Variable BUILDS_BASE_DIR : string.
(** [random.choices(population, k=k)]: [k] one-character strings. *)
Variable random_choices : string -> nat -> list string.
(** [datetime.now()] *)
Variable datetime_now : Z.
(** [pkg_resources.resource_filename(package, resource)] *)
Variable resource_filename : string -> string -> string.
(** The exit status [run_with_pty(argv)] returns. *)
Variable run_with_pty : list string -> Z.

Definition random_string : string := Py.join "" (random_choices alphabet 8).

(** [parser.error(msg)] *)
Definition parser_error {A} (msg : string) : M A := raise (UsageError msg).

(** The argument vector handed to [run_with_pty] (lines 189-209). *)
Definition build_argv (args : Namespace) (package_name : string)
    (dependencies : Dependencies) : list string :=
  if String.eqb (args_type args) (BuildType_value container)
  then
    let script :=
      resource_filename "llama_toolchain" "distribution/build_container.sh" in
    [ script; args_api args; package_name;
      Py.or_else (docker_image dependencies) default_image;
      Py.join " " (pip_packages dependencies) ]
  else
    let script :=
      resource_filename "llama_toolchain" "distribution/build_conda_env.sh" in
    [ script; args_api args; package_name;
      Py.join " " (pip_packages dependencies) ].

(** The model written to the descriptor (lines 169-186). *)
Definition build_config (args : Namespace) (api : Api) (package_name : string)
    (provider_deps : list (Api * ProviderSpec)) : PackageConfig :=
  let stub_config :=
    (KeyStr api, RefId (args_provider args))
    :: map (fun '(k, v) => (KeyApi k, RefSpec v)) provider_deps in
  {| pc_built_at := datetime_now;
     pc_package_name := package_name;
     pc_docker_image :=
       if String.eqb (args_type args) (BuildType_value container)
       then Some package_name else None;
     pc_conda_env :=
       if String.eqb (args_type args) (BuildType_value conda_env)
       then Some package_name else None;
     pc_providers := stub_config |}.

(** [ApiBuild._run_api_build_command(self, args)] *)
Definition _run_api_build_command (args : Namespace) : M unit :=
  emit (MakeDirs BUILDS_BASE_DIR) ;;;
  let all_providers := api_providers in
  api <- lift (Api_of Api_values (args_api args)) ;;
  (if decide (is_Some (all_providers !! api)) then ret tt
   else raise AssertionError) ;;;
  providers <- getitem all_providers api ;;
  if decide (is_Some (providers !! args_provider args)) then
    let name := Py.or_else (args_name args) random_string in
    let package_name :=
      package_name_of (args_type args) (args_provider args) name in
    let build_dir := path_join BUILDS_BASE_DIR (args_api args) in
    emit (MakeDirs build_dir) ;;;
    provider_deps <-
      lift (parse_dependencies Api_values api_providers
              (Py.or_else (args_dependencies args) "")) ;;
    root <- getitem providers (args_provider args) ;;
    dependencies <- on_heap (get_dependencies root provider_deps) ;;
    let package_file := path_join build_dir (package_name ++ ".yaml")%string in
    let c := build_config args api package_name provider_deps in
    emit (WriteFile package_file (PackageConfig_dict c)) ;;;
    let argv := build_argv args package_name dependencies in
    emit (RunWithPty argv) ;;;
    let return_code := run_with_pty argv in
    if (return_code =? 0)%Z
    then raise (NameError "target_name")
    else
      emit (CPrint ("Failed to build target " ++ package_name)%string "red") ;;;
      raise AssertionError
  else
    parser_error (not_available (args_provider args) api).

End Command.

(** The events a computation adds to the trace of the world [w]. *)
Definition events_of {A} (m : M A) (w : world) : list event :=
  drop (length (trace w)) (trace (m w).2).

(** The argument vectors of the runs of the build script among events. *)
Definition runs (evs : list event) : list (list string) :=
  omap (fun e => match e with RunWithPty argv => Some argv | _ => None end)
    evs.

(** What was printed among events. *)
Definition printed (evs : list event) : list (string * string) :=
  omap (fun e => match e with CPrint t c => Some (t, c) | _ => None end) evs.

(** ** Vocabulary of the properties *)

(** The image [_deps] derives from a provider. *)
Definition derived_image (p : ProviderSpec) : option string :=
  match p with
  | InlineProviderSpec _ img => img
  | RemoteProviderSpec _ => None
  end.

(** The list object [_deps] takes from a provider, when it takes one. *)
Definition package_list (p : ProviderSpec) : option loc :=
  match p with
  | InlineProviderSpec l _ => Some l
  | RemoteProviderSpec (Some a) => Some (adapter_pip_packages a)
  | RemoteProviderSpec None => None
  end.

(** The packages [_deps] derives from a provider in the store [σ]. *)
Definition derived_packages (σ : gmap loc (list string)) (p : ProviderSpec)
  : list string :=
  match package_list p with
  | Some l => list_at σ l
  | None => []
  end.

(** The list object of [p], if it has one, is in the store. *)
Definition allocated (σ : gmap loc (list string)) (p : ProviderSpec) : Prop :=
  forall l, package_list p = Some l -> l ∈ dom σ.

(** [p] and [q] do not share their list object. *)
Definition separate (p q : ProviderSpec) : Prop :=
  forall l, package_list p = Some l -> package_list q <> Some l.

(** An image is non-empty when it is neither [None] nor [""]. *)
Definition nonempty_image (o : option string) : Prop :=
  Py.truthy_opt o = true.

(** ** Vocabulary of the further properties *)

(** The number of occurrences of the character [c] in [s]. *)
Fixpoint count_char (c : ascii) (s : string) : nat :=
  match s with
  | EmptyString => 0
  | String d r => (if Ascii.eqb d c then 1 else 0) + count_char c r
  end.

(** Every character of [s] is white space or a comma. *)
Fixpoint blank_list (s : string) : bool :=
  match s with
  | EmptyString => true
  | String c r => (Py.isspace c || Ascii.eqb c ",") && blank_list r
  end.

(** The keys of [l] that are not in [seen], each once, in the order they
    are first listed. *)
Fixpoint first_seen (seen l : list Api) : list Api :=
  match l with
  | [] => []
  | k :: r =>
      if bool_decide (k ∈ seen) then first_seen seen r
      else k :: first_seen (k :: seen) r
  end.

Definition first_listed (l : list Api) : list Api := first_seen [] l.

(** [s] is a string of one character, and the character is one of
    [population]: what [random.choices] draws from a string. *)
Definition drawn_from (population s : string) : Prop :=
  exists c, s = String c EmptyString /\ Py.has_char c population = true.

(** An item of the mapping: its API is a member of [Api] and its provider
    is one the registry has for that API. *)
Definition from_registry (Api_values : list string)
    (api_providers : gmap Api (gmap string ProviderSpec))
    (kv : Api * ProviderSpec) : Prop :=
  kv.1 ∈ Api_values
  /\ exists providers provider_id,
       api_providers !! kv.1 = Some providers
       /\ providers !! provider_id = Some kv.2.

(** ** Concrete providers and stores *)

Module Ex.

(** A store with three list objects. *)
Definition store : gmap loc (list string) :=
  <[0 := ["torch"]]> (<[1 := ["faiss"]]> (<[2 := ["httpx"]]> ∅)).

Definition torch_provider : ProviderSpec :=
  InlineProviderSpec 0 (Some "pytorch/pytorch").

Definition faiss_provider : ProviderSpec := InlineProviderSpec 1 None.

Definition faiss_image_provider : ProviderSpec :=
  InlineProviderSpec 1 (Some "faiss/base").

Definition httpx_image_provider : ProviderSpec :=
  InlineProviderSpec 2 (Some "httpx/base").

Definition httpx_adapter : ProviderSpec :=
  RemoteProviderSpec (Some {| adapter_pip_packages := 2 |}).

Definition bare_remote : ProviderSpec := RemoteProviderSpec None.

(** An inline provider that declares the empty string as its image. *)
Definition blank_image_provider : ProviderSpec :=
  InlineProviderSpec 0 (Some "").

(** The members of [Api] and the registry of the examples: provider [p1]
    for the API [a] and provider [p2] for the API [b]. *)
Definition Api_values : list string := ["a"; "b"].

Definition registry : gmap Api (gmap string ProviderSpec) :=
  <["a" := <["p1" := torch_provider]> ∅]>
    (<["b" := <["p2" := faiss_provider]> ∅]> ∅).

(** The entries of the dependency string ["a=p1,, b=p2 "]. *)
Definition entries : list written :=
  [ Pair {| wp_lead := ""; wp_api := "a"; wp_gap := "";
            wp_provider := "p1"; wp_trail := "" |};
    Blank "";
    Pair {| wp_lead := " "; wp_api := "b"; wp_gap := "";
            wp_provider := "p2"; wp_trail := " " |} ].

(** The surroundings of the example invocations. *)
Definition random_choices (population : string) (k : nat) : list string :=
  repeat "x" k.

Definition resource_filename (package resource : string) : string :=
  package ++ "/" ++ resource.

Definition exit_zero (argv : list string) : Z := 0.

Definition exit_one (argv : list string) : Z := 1.

Definition world0 : world := {| heap := store; trace := [] |}.

(** [llama api build a --provider p1 --dependencies b=p2 --name baz] *)
Definition container_args : Namespace :=
  {| args_api := "a"; args_provider := "p1";
     args_dependencies := Some "b=p2"; args_name := Some "baz";
     args_type := "container" |}.

(** [llama api build b --provider p2 --type conda_env --name baz] *)
Definition conda_args : Namespace :=
  {| args_api := "b"; args_provider := "p2";
     args_dependencies := None; args_name := Some "baz";
     args_type := "conda_env" |}.

(** The example invocations, by the exit status of the build script. *)
Definition build (run_with_pty : list string -> Z) (args : Namespace)
  : M unit :=
  _run_api_build_command Api_values registry "/builds" random_choices 0
    resource_filename run_with_pty args.

End Ex.

(** Further concrete inputs. *)
Module Ex2.

(** A registry with two providers for the API [b]. *)
Definition registry : gmap Api (gmap string ProviderSpec) :=
  <["a" := <["p1" := Ex.torch_provider]> ∅]>
    (<["b" := <["p2" := Ex.faiss_provider]>
                (<["p3" := Ex.httpx_adapter]> ∅)]> ∅).

End Ex2.

(** * Theorems *)

(** ** The conflict check of [get_dependencies] *)

Section Conflict.

Implicit Types (σ : gmap loc (list string)) (p dep root : ProviderSpec).

Lemma _deps_image p σ : (_deps p σ).1.2 = derived_image p.
Proof. by destruct p as [l img|[a|]]. Qed.

Lemma _deps_list p σ l :
  package_list p = Some l -> (_deps p σ).1.1 = l /\ (_deps p σ).2 = σ.
Proof. destruct p as [l' img|[a|]]; simpl; intros; by simplify_eq. Qed.

(** The loop raises nothing but the conflict error. *)
Lemma extend_with_error l img deps σ e :
  (extend_with l img deps σ).1 = inl e -> e = ValueError conflict_message.
Proof.
  revert σ. induction deps as [|dep deps IH]; intros σ; simpl; [done|].
  destruct (_deps dep σ) as [[dl di] σ1].
  destruct (Py.truthy_opt img && Py.truthy_opt di); simpl; [congruence|].
  apply IH.
Qed.

(** The loop raises exactly when the root's image and the image of one of
    the dependencies are both non-empty. *)
Lemma extend_with_raises l img deps σ :
  is_ok (extend_with l img deps σ).1 = false
  <-> nonempty_image img
      /\ exists dep, dep ∈ deps /\ nonempty_image (derived_image dep).
Proof.
  unfold nonempty_image.
  revert σ. induction deps as [|dep deps IH]; intros σ; simpl.
  - split; [done|]. intros (_ & dep & Hin & _). by apply elem_of_nil in Hin.
  - pose proof (_deps_image dep σ) as Himg.
    destruct (_deps dep σ) as [[dl di] σ1]; simpl in Himg; subst di.
    destruct (Py.truthy_opt img) eqn:Hroot; simpl.
    + destruct (Py.truthy_opt (derived_image dep)) eqn:Hdep; simpl.
      * split; [|done]. intros _. split; [done|].
        exists dep. split; [apply list_elem_of_here|done].
      * rewrite IH. split.
        -- intros (_ & d & Hin & Hd). split; [done|].
           exists d. split; [by apply list_elem_of_further|done].
        -- intros (_ & d & Hin & Hd). split; [done|].
           apply elem_of_cons in Hin as [->|Hin]; [congruence|by exists d].
    + rewrite IH. split; intros (? & _); congruence.
Qed.

Lemma get_dependencies_result root aux σ :
  let '(l, img) := (_deps root σ).1 in
  let r := extend_with l img (map snd aux) (_deps root σ).2 in
  get_dependencies root aux σ
  = match r.1 with
    | inl e => (inl e, r.2)
    | inr _ => (inr {| pip_packages := list_at r.2 l; docker_image := img |},
                r.2)
    end.
Proof.
  unfold get_dependencies.
  destruct (_deps root σ) as [[l img] σ0]; simpl.
  by destruct (extend_with l img (map snd aux) σ0) as [[e|[]] σ1].
Qed.

End Conflict.

(** C1.  [get_dependencies] raises the conflict error if and only if the
    image derived from the root and the image derived from at least one
    auxiliary provider are both non-empty; it raises no other error; and when
    it returns, the image of the result is the image derived from the root
    ([None] when the root derives [None]). *)
Theorem get_dependencies_conflict_iff :
  forall (root : ProviderSpec) (aux : list (Api * ProviderSpec))
         (σ : gmap loc (list string)),
    ((get_dependencies root aux σ).1 = inl (ValueError conflict_message)
     <-> nonempty_image (derived_image root)
         /\ exists dep, dep ∈ map snd aux
                        /\ nonempty_image (derived_image dep))
    /\ (is_ok (get_dependencies root aux σ).1 = false
        <-> (get_dependencies root aux σ).1 = inl (ValueError conflict_message))
    /\ match (get_dependencies root aux σ).1 with
       | inr d =>
           docker_image d = derived_image root
           /\ (derived_image root = None -> docker_image d = None)
       | inl _ => True
       end.
Proof.
  intros root aux σ.
  pose proof (get_dependencies_result root aux σ) as Hres.
  pose proof (_deps_image root σ) as Himg.
  destruct (_deps root σ) as [[l img] σ0]; simpl in *; subst img.
  pose proof (extend_with_raises l (derived_image root) (map snd aux) σ0) as Hr.
  pose proof (extend_with_error l (derived_image root) (map snd aux) σ0) as He.
  rewrite Hres; clear Hres.
  destruct (extend_with l (derived_image root) (map snd aux) σ0) as [[e|[]] σ1];
    simpl in *.
  - rewrite (He e eq_refl). destruct Hr as [Hr _]. specialize (Hr eq_refl).
    repeat split; try done; by destruct Hr.
  - repeat split; try done. intros H. by apply Hr in H.
Qed.

(** ** A root without image *)

(** C10, as stated, fails for a root that declares the empty string as its
    image: the image is empty, the merge returns, and the image of the
    result is the empty string, not [None]. *)
Lemma blank_root_image_is_not_None :
  Py.truthy_opt (derived_image Ex.blank_image_provider) = false
  /\ ~ (exists d,
          (get_dependencies Ex.blank_image_provider
             [("memory", Ex.faiss_image_provider)] Ex.store).1 = inr d
          /\ docker_image d = None).
Proof.
  split; [reflexivity|].
  intros (d & Hd & Hnone). vm_compute in Hd. by simplify_eq.
Qed.

(** C10, amended.  When the image derived from the root is empty ([None] or
    the empty string), [get_dependencies] returns whatever images the
    auxiliary providers declare, and the image of the result is the image
    derived from the root: it is empty, it is [None] when the root derives
    [None], and no image of an auxiliary provider is carried into it. *)
Theorem get_dependencies_root_without_image :
  forall (root : ProviderSpec) (aux : list (Api * ProviderSpec))
         (σ : gmap loc (list string)),
    Py.truthy_opt (derived_image root) = false ->
    exists d,
      (get_dependencies root aux σ).1 = inr d
      /\ docker_image d = derived_image root
      /\ Py.truthy_opt (docker_image d) = false
      /\ (derived_image root = None -> docker_image d = None).
Proof.
  intros root aux σ Hempty.
  pose proof (get_dependencies_result root aux σ) as Hres.
  pose proof (_deps_image root σ) as Himg.
  destruct (_deps root σ) as [[l img] σ0]; simpl in *; subst img.
  pose proof (extend_with_raises l (derived_image root) (map snd aux) σ0)
    as [Hraises _].
  rewrite Hres; clear Hres.
  destruct (extend_with l (derived_image root) (map snd aux) σ0) as [[e|[]] σ1];
    simpl in *.
  - destruct (Hraises eq_refl) as [Hroot _]. unfold nonempty_image in Hroot.
    congruence.
  - by eexists.
Qed.

Lemma get_dependencies_root_without_image_witness :
  Py.truthy_opt (derived_image Ex.bare_remote) = false
  /\ exists d,
       (get_dependencies Ex.bare_remote
          [("memory", Ex.faiss_image_provider);
           ("safety", Ex.httpx_image_provider)] Ex.store).1 = inr d
       /\ docker_image d = derived_image Ex.bare_remote
       /\ Py.truthy_opt (docker_image d) = false
       /\ (derived_image Ex.bare_remote = None -> docker_image d = None).
Proof.
  split; [reflexivity|].
  apply (get_dependencies_root_without_image Ex.bare_remote); reflexivity.
Defined.

(** ** The store under [get_dependencies] *)

Section Store.

Implicit Types (σ : gmap loc (list string)) (p dep root : ProviderSpec).

Lemma list_at_insert_eq σ l v : list_at (<[l := v]> σ) l = v.
Proof. unfold list_at. by rewrite lookup_insert_eq. Qed.

Lemma list_at_insert_ne σ l l' v :
  l <> l' -> list_at (<[l := v]> σ) l' = list_at σ l'.
Proof. intros. unfold list_at. by rewrite lookup_insert_ne. Qed.

Lemma fresh_not_allocated σ l : l ∈ dom σ -> l <> fresh (dom σ).
Proof. intros Hl ->. by apply (is_fresh (dom σ)). Qed.

(** [_deps] leaves every list object of the store as it is. *)
Lemma _deps_frame p σ l :
  l ∈ dom σ -> (_deps p σ).2 !! l = σ !! l /\ l ∈ dom (_deps p σ).2.
Proof.
  intros Hl. destruct p as [l' img|[a|]]; simpl; try done.
  pose proof (fresh_not_allocated σ l Hl).
  rewrite lookup_insert_ne by done. split; [done|].
  rewrite dom_insert_L. set_solver.
Qed.

(** The list [_deps] returns holds the derived packages, and it is either
    the provider's own list object or a new one. *)
Lemma _deps_packages p σ :
  allocated σ p ->
  list_at (_deps p σ).2 (_deps p σ).1.1 = derived_packages σ p
  /\ (_deps p σ).1.1 ∈ dom (_deps p σ).2
  /\ (package_list p = Some (_deps p σ).1.1
      \/ (package_list p = None /\ (_deps p σ).1.1 ∉ dom σ)).
Proof.
  intros Halloc. unfold derived_packages.
  destruct p as [l' img|[a|]]; simpl.
  - split; [done|]. split; [by apply Halloc|by left].
  - split; [done|]. split; [by apply Halloc|by left].
  - rewrite list_at_insert_eq. split; [done|]. split.
    + rewrite dom_insert_L. set_solver.
    + right. split; [done|]. apply is_fresh.
Qed.

(** The loop writes to the root's list object only: every other list object
    of the store is unchanged, whether the loop returns or raises. *)
Lemma extend_with_frame l img deps σ l' :
  l' ∈ dom σ -> l' <> l ->
  (extend_with l img deps σ).2 !! l' = σ !! l'.
Proof.
  revert σ. induction deps as [|dep deps IH]; intros σ Hl' Hne; simpl; [done|].
  destruct (_deps_frame dep σ l' Hl') as [Hsame Hdom].
  destruct (_deps dep σ) as [[dl di] σ1]; simpl in *.
  destruct (Py.truthy_opt img && Py.truthy_opt di); simpl; [done|].
  rewrite IH.
  - unfold list_extend. by rewrite lookup_insert_ne.
  - unfold list_extend. rewrite dom_insert_L. set_solver.
  - done.
Qed.

(** When no dependency shares its list object with the root, the loop
    appends the derived packages of the dependencies, in order, to the
    root's list. *)
Lemma extend_with_packages l img deps σ :
  l ∈ dom σ ->
  (forall dep, dep ∈ deps -> allocated σ dep /\ package_list dep <> Some l) ->
  is_ok (extend_with l img deps σ).1 = true ->
  list_at (extend_with l img deps σ).2 l
  = list_at σ l ++ concat (map (derived_packages σ) deps).
Proof.
  revert σ. induction deps as [|dep deps IH]; intros σ Hl Hdeps; simpl.
  - intros _. by rewrite app_nil_r.
  - destruct (Hdeps dep (list_elem_of_here _ _)) as [Halloc Hsep].
    destruct (_deps_packages dep σ Halloc) as (Hpk & Hdl & Hown).
    destruct (_deps_frame dep σ l Hl) as [Hsame Hdom].
    assert (forall l0, l0 ∈ dom σ -> (_deps dep σ).2 !! l0 = σ !! l0
                                     /\ l0 ∈ dom (_deps dep σ).2) as Hfr
      by (intros; by apply _deps_frame).
    destruct (_deps dep σ) as [[dl di] σ1]; simpl in *.
    destruct (Py.truthy_opt img && Py.truthy_opt di); simpl; [done|].
    assert (dl <> l) as Hdl_ne.
    { destruct Hown as [Hown|[_ Hown]]; [congruence|]. by intros ->. }
    intros Hok. rewrite IH; try done.
    + unfold list_extend. rewrite list_at_insert_eq, Hpk, <- app_assoc.
      f_equal. { unfold list_at. by rewrite Hsame. }
      do 2 f_equal. apply map_ext_in. intros q Hq%list_elem_of_In.
      destruct (Hdeps q (list_elem_of_further _ _ _ Hq)) as [Hq_alloc Hq_sep].
      unfold derived_packages. destruct (package_list q) as [lq|] eqn:E; [|done].
      rewrite list_at_insert_ne; [|intros ->; by apply Hq_sep].
      unfold list_at. by rewrite (proj1 (Hfr lq (Hq_alloc lq E))).
    + unfold list_extend. rewrite dom_insert_L. by apply elem_of_union_r.
    + intros q Hq.
      destruct (Hdeps q (list_elem_of_further _ _ _ Hq)) as [Hq_alloc Hq_sep].
      split; [|done]. intros lq E. unfold list_extend. rewrite dom_insert_L.
      apply elem_of_union_r, Hfr, Hq_alloc, E.
Qed.

End Store.

(** When no auxiliary provider shares its list object with the root,
    [get_dependencies] returns the packages derived from the root followed by
    the packages derived from each auxiliary provider, in the order of the
    dictionary, with duplicates kept. *)
Lemma get_dependencies_packages_separate :
  forall (root : ProviderSpec) (aux : list (Api * ProviderSpec))
         (σ : gmap loc (list string)) (d : Dependencies),
    allocated σ root ->
    (forall dep, dep ∈ map snd aux -> allocated σ dep /\ separate root dep) ->
    (get_dependencies root aux σ).1 = inr d ->
    pip_packages d
    = derived_packages σ root
      ++ concat (map (fun kv => derived_packages σ kv.2) aux).
Proof.
  intros root aux σ d Halloc Haux.
  pose proof (get_dependencies_result root aux σ) as Hres.
  destruct (_deps_packages root σ Halloc) as (Hpk & Hdom & Hown).
  assert (forall l0, l0 ∈ dom σ -> (_deps root σ).2 !! l0 = σ !! l0
                                   /\ l0 ∈ dom (_deps root σ).2) as Hfr
    by (intros; by apply _deps_frame).
  destruct (_deps root σ) as [[l img] σ0]; simpl in *.
  rewrite Hres; clear Hres.
  assert (forall dep, dep ∈ map snd aux ->
            allocated σ0 dep /\ package_list dep <> Some l) as Hsep.
  { intros dep Hdep. destruct (Haux dep Hdep) as [Hd_alloc Hd_sep]. split.
    - intros ld E. by apply Hfr, Hd_alloc.
    - intros E. destruct Hown as [Hown|[_ Hown]].
      + by apply (Hd_sep l).
      + apply Hown. by apply Hd_alloc. }
  pose proof (extend_with_packages l img (map snd aux) σ0 Hdom Hsep) as Hext.
  destruct (extend_with l img (map snd aux) σ0) as [[e|[]] σ1]; simpl in *;
    [done|].
  intros [= <-]; simpl. rewrite (Hext eq_refl), Hpk. f_equal.
  rewrite map_map. f_equal. apply map_ext_in. intros [k q] Hq%list_elem_of_In.
  simpl. unfold derived_packages.
  destruct (package_list q) as [lq|] eqn:E; [|done].
  assert (q ∈ map snd aux) as Hq'.
  { apply list_elem_of_fmap. by exists (k, q). }
  destruct (Haux q Hq') as [Hq_alloc _].
  unfold list_at. by rewrite (proj1 (Hfr lq (Hq_alloc lq E))).
Qed.

(** [get_dependencies] writes to one list object of the store only, the one
    it takes from the root: every other list object of the store is
    unchanged, whether the call returns or raises. *)
Lemma get_dependencies_frame :
  forall (root : ProviderSpec) (aux : list (Api * ProviderSpec))
         (σ : gmap loc (list string)) (l : loc),
    l ∈ dom σ -> package_list root <> Some l ->
    (get_dependencies root aux σ).2 !! l = σ !! l.
Proof.
  intros root aux σ l Hl Hne.
  pose proof (get_dependencies_result root aux σ) as Hres.
  destruct (_deps_frame root σ l Hl) as [Hsame Hdom].
  assert ((_deps root σ).1.1 <> l) as Hroot.
  { destruct root as [l' img|[a|]]; simpl in *; try congruence.
    intros E. symmetry in E. revert E. by apply fresh_not_allocated. }
  destruct (_deps root σ) as [[lr img] σ0]; simpl in *.
  pose proof (extend_with_frame lr img (map snd aux) σ0 l Hdom) as Hfr.
  rewrite Hres; clear Hres.
  destruct (extend_with lr img (map snd aux) σ0) as [[e|[]] σ1]; simpl in *;
    rewrite Hfr; congruence.
Qed.

(** After a call that returns, the root's own list object holds the packages
    of the result: the list has been extended in place. *)
Lemma get_dependencies_writes_root :
  forall (root : ProviderSpec) (aux : list (Api * ProviderSpec))
         (σ : gmap loc (list string)) (l : loc) (d : Dependencies),
    package_list root = Some l ->
    (get_dependencies root aux σ).1 = inr d ->
    list_at (get_dependencies root aux σ).2 l = pip_packages d.
Proof.
  intros root aux σ l d Hl.
  pose proof (get_dependencies_result root aux σ) as Hres.
  destruct (_deps_list root σ l Hl) as [Hlist _].
  destruct (_deps root σ) as [[lr img] σ0]; simpl in *; subst lr.
  rewrite Hres; clear Hres.
  destruct (extend_with l img (map snd aux) σ0) as [[e|[]] σ1]; simpl; [done|].
  by intros [= <-].
Qed.

(** C2, at an input where the code departs from it.  The root provider is
    also bound to the second auxiliary API, so that its list object is both
    the list that is extended and a list that is appended.  The result has
    four packages; the packages derived from the root followed by those
    derived from the two auxiliary providers are three. *)
Theorem get_dependencies_shared_root_list :
  (get_dependencies Ex.faiss_provider
     [("inference", Ex.torch_provider); ("memory", Ex.faiss_provider)]
     Ex.store).1
  = inr {| pip_packages := ["faiss"; "torch"; "faiss"; "torch"];
           docker_image := None |}
  /\ derived_packages Ex.store Ex.faiss_provider
     ++ derived_packages Ex.store Ex.torch_provider
     ++ derived_packages Ex.store Ex.faiss_provider
     = ["faiss"; "torch"; "faiss"].
Proof. split; vm_compute; reflexivity. Qed.

(** C3, at an input where the code departs from it.  The root's list of
    packages holds one package before the call and two after it, both when
    the call returns and when it raises at a later auxiliary provider. *)
Theorem get_dependencies_changes_root_list :
  derived_packages Ex.store Ex.torch_provider = ["torch"]
  /\ (get_dependencies Ex.torch_provider [("memory", Ex.faiss_provider)]
        Ex.store).1
     = inr {| pip_packages := ["torch"; "faiss"];
              docker_image := Some "pytorch/pytorch" |}
  /\ derived_packages
       (get_dependencies Ex.torch_provider [("memory", Ex.faiss_provider)]
          Ex.store).2 Ex.torch_provider
     = ["torch"; "faiss"]
  /\ (get_dependencies Ex.torch_provider
        [("memory", Ex.faiss_provider); ("safety", Ex.httpx_image_provider)]
        Ex.store).1
     = inl (ValueError conflict_message)
  /\ derived_packages
       (get_dependencies Ex.torch_provider
          [("memory", Ex.faiss_provider); ("safety", Ex.httpx_image_provider)]
          Ex.store).2 Ex.torch_provider
     = ["torch"; "faiss"].
Proof. repeat split; vm_compute; reflexivity. Qed.

(** ** [str.replace] of ["::"] by ["-"] *)

Section Replace.

Implicit Types (s t a b p : string) (c d : ascii).

Local Arguments Ascii.eqb : simpl never.

Lemma startswith_app p t : Py.startswith p (p ++ t)%string = true.
Proof. induction p as [|c p IH]; simpl; [done|]. by rewrite Ascii.eqb_refl. Qed.

(** A string that has an occurrence of [p] contains [p]. *)
Lemma contains_occurrence p a b : Py.contains p (a ++ p ++ b)%string = true.
Proof.
  induction a as [|c a IH]; simpl.
  - destruct (p ++ b)%string eqn:E; simpl; rewrite <- E, startswith_app; done.
  - rewrite IH. apply orb_true_r.
Qed.

Lemma contains_cc_cons c s :
  Py.contains "::" (String c s)
  = (Ascii.eqb ":" c && Py.startswith ":" s) || Py.contains "::" s.
Proof. done. Qed.

(** An occurrence at the front becomes ["-"], and the scan goes on after
    it. *)
Lemma replace_cc_front s :
  Py.replace "::" "-" (String ":" (String ":" s))
  = String "-" (Py.replace "::" "-" s).
Proof. by destruct s. Qed.

(** Without an occurrence at the front, the first character is kept. *)
Lemma replace_cc_keep c s :
  Ascii.eqb ":" c && Py.startswith ":" s = false ->
  Py.replace "::" "-" (String c s) = String c (Py.replace "::" "-" s).
Proof.
  unfold Py.replace. simpl. by intros ->.
Qed.

Lemma front_occurrence c s :
  Ascii.eqb ":" c && Py.startswith ":" s = true ->
  exists s', String c s = String ":" (String ":" s').
Proof.
  intros [Hc Hs]%andb_true_iff. apply Ascii.eqb_eq in Hc as <-.
  destruct s as [|d s]; simpl in Hs; [done|].
  apply andb_true_iff in Hs as [Hd _]. apply Ascii.eqb_eq in Hd as <-.
  by exists s.
Qed.

(** The replacement starts with a colon only if the string does. *)
Lemma replace_cc_startswith s :
  Py.startswith ":" (Py.replace "::" "-" s) = true ->
  Py.startswith ":" s = true.
Proof.
  destruct s as [|c s]; [done|].
  destruct (Ascii.eqb ":" c && Py.startswith ":" s) eqn:E.
  - destruct (front_occurrence c s E) as [s' ->].
    by rewrite replace_cc_front.
  - by rewrite (replace_cc_keep c s E).
Qed.

(** No occurrence of ["::"] is left after the replacement. *)
Lemma replace_cc_complete s :
  Py.contains "::" (Py.replace "::" "-" s) = false.
Proof.
  remember (String.length s) as n eqn:Hn. revert s Hn.
  induction n as [n IH] using lt_wf_ind. intros [|c s] Hn; [done|].
  destruct (Ascii.eqb ":" c && Py.startswith ":" s) eqn:E.
  - destruct (front_occurrence c s E) as [s' Hs']. rewrite Hs' in *.
    rewrite replace_cc_front, contains_cc_cons. simpl.
    apply (IH (String.length s')); [|done]. subst n. simpl. lia.
  - rewrite (replace_cc_keep c s E), contains_cc_cons.
    rewrite (IH (String.length s)); [|subst n; simpl; lia|done].
    rewrite orb_false_r. apply andb_false_iff.
    apply andb_false_iff in E as [E|E]; [by left|right].
    destruct (Py.startswith ":" (Py.replace "::" "-" s)) eqn:F; [|done].
    apply replace_cc_startswith in F. congruence.
Qed.

(** A string without occurrence of ["::"] is left as it is. *)
Lemma replace_cc_absent s :
  Py.contains "::" s = false -> Py.replace "::" "-" s = s.
Proof.
  induction s as [|c s IH]; [done|].
  rewrite contains_cc_cons. intros [E H]%orb_false_iff.
  by rewrite (replace_cc_keep c s E), IH.
Qed.

(** The leftmost occurrence of ["::"] becomes ["-"], what is before it is
    kept, and what is after it is treated in the same way. *)
Lemma replace_cc_leftmost s t :
  Py.contains "::" (s ++ ":")%string = false ->
  Py.replace "::" "-" (s ++ "::" ++ t)%string
  = (s ++ "-" ++ Py.replace "::" "-" t)%string.
Proof.
  induction s as [|c s IH]; intros H.
  - apply (replace_cc_front t).
  - change (String c s ++ ?x)%string with (String c (s ++ x)%string) in *.
    rewrite contains_cc_cons in H. apply orb_false_iff in H as [E H].
    rewrite replace_cc_keep; [by rewrite IH|].
    assert (Py.startswith ":" (s ++ "::" ++ t)%string
            = Py.startswith ":" (s ++ ":")%string) as ->
      by (destruct s; reflexivity).
    exact E.
Qed.

End Replace.

(** C6.  The name of the package is the prefix ["image-"] for the container
    kind and ["env-"] for the environment kind, followed by the provider
    identifier, ["-"] and the name, in which every occurrence of ["::"] is
    then replaced by ["-"]: no occurrence is left in the package name, a
    leftmost occurrence becomes ["-"] with the text before it kept and the
    text after it treated in the same way, and a text without occurrence is
    kept.  The provider ["foo::bar"] with the name ["baz"] and the container
    kind gives ["image-foo-bar-baz"]. *)
Theorem package_name_derivation :
  forall provider name : string,
    package_name_of (BuildType_value container) provider name
    = Py.replace "::" "-" ("image-" ++ provider ++ "-" ++ name)%string
    /\ package_name_of (BuildType_value conda_env) provider name
       = Py.replace "::" "-" ("env-" ++ provider ++ "-" ++ name)%string
    /\ (forall type a b,
          package_name_of type provider name <> (a ++ "::" ++ b)%string)
    /\ (forall s t,
          Py.contains "::" (s ++ ":")%string = false ->
          Py.replace "::" "-" (s ++ "::" ++ t)%string
          = (s ++ "-" ++ Py.replace "::" "-" t)%string)
    /\ (forall s, Py.contains "::" s = false -> Py.replace "::" "-" s = s)
    /\ package_name_of (BuildType_value container) "foo::bar" "baz"
       = "image-foo-bar-baz".
Proof.
  intros provider name. repeat split.
  - intros type a b H.
    pose proof (contains_occurrence "::" a b) as Hocc. rewrite <- H in Hocc.
    unfold package_name_of in Hocc. by rewrite replace_cc_complete in Hocc.
  - apply replace_cc_leftmost.
  - apply replace_cc_absent.
Qed.

(** ** Trimming, splitting and joining *)

Section Strings.

Implicit Types (s t a b w : string) (c d : ascii) (l : list string).

Local Arguments Ascii.eqb : simpl never.
Local Arguments Py.isspace : simpl never.
Local Arguments String.append !_ _ /.

Lemma append_nil_r s : (s ++ "")%string = s.
Proof. induction s as [|c s IH]; simpl; [done|by rewrite IH]. Qed.

Lemma append_assoc a b s : ((a ++ b) ++ s)%string = (a ++ b ++ s)%string.
Proof. induction a as [|c a IH]; simpl; [done|by rewrite IH]. Qed.

Lemma has_char_app c a b :
  Py.has_char c (a ++ b)%string = Py.has_char c a || Py.has_char c b.
Proof.
  induction a as [|d a IH]; simpl; [done|]. by rewrite IH, orb_assoc.
Qed.

Lemma all_space_has_char c w :
  Py.all_space w = true -> Py.isspace c = false -> Py.has_char c w = false.
Proof.
  intros Hw Hc. induction w as [|d w IH]; simpl in *; [done|].
  apply andb_true_iff in Hw as [Hd Hw]. rewrite (IH Hw), orb_false_r.
  destruct (Ascii.eqb_spec d c) as [->|]; [congruence|done].
Qed.

(** *** [lstrip] *)

Lemma lstrip_all_space w s :
  Py.all_space w = true -> Py.lstrip (w ++ s)%string = Py.lstrip s.
Proof.
  induction w as [|c w IH]; simpl; [done|].
  intros [-> Hw]%andb_true_iff. by apply IH.
Qed.

Lemma lstrip_length s : String.length (Py.lstrip s) <= String.length s.
Proof.
  induction s as [|c s IH]; simpl; [done|].
  destruct (Py.isspace c); simpl; lia.
Qed.

(** A string that [lstrip] leaves as it is does not start with white
    space. *)
Lemma lstrip_fixed c s :
  Py.lstrip (String c s) = String c s -> Py.isspace c = false.
Proof.
  simpl. destruct (Py.isspace c); [|done]. intros H.
  pose proof (lstrip_length s) as Hlen. rewrite H in Hlen. simpl in Hlen. lia.
Qed.

Lemma lstrip_keep a c s :
  Py.lstrip a = a -> Py.isspace c = false ->
  Py.lstrip (a ++ String c s)%string = (a ++ String c s)%string.
Proof.
  destruct a as [|d a]; simpl.
  - by intros _ ->.
  - intros H _. by rewrite (lstrip_fixed d a H).
Qed.

(** *** [rstrip] *)

Lemma rstrip_all_space w : Py.all_space w = true -> Py.rstrip w = "".
Proof.
  induction w as [|c w IH]; simpl; [done|].
  intros [-> Hw]%andb_true_iff. by rewrite (IH Hw).
Qed.

Lemma rstrip_app_all_space s w :
  Py.all_space w = true -> Py.rstrip (s ++ w)%string = Py.rstrip s.
Proof.
  intros Hw. induction s as [|c s IH]; simpl.
  - by apply rstrip_all_space.
  - by rewrite IH.
Qed.

Lemma rstrip_cons c s :
  Py.isspace c = false -> Py.rstrip (String c s) = String c (Py.rstrip s).
Proof. simpl. intros ->. by destruct (Py.rstrip s). Qed.

Lemma rstrip_app a b :
  Py.rstrip b <> "" -> Py.rstrip (a ++ b)%string = (a ++ Py.rstrip b)%string.
Proof.
  intros Hb. induction a as [|c a IH]; simpl; [done|].
  rewrite IH. destruct a; simpl; [|done]. by destruct (Py.rstrip b).
Qed.

(** *** [strip] *)

Lemma strip_all_space w : Py.all_space w = true -> Py.strip w = "".
Proof.
  intros Hw. unfold Py.strip.
  rewrite <- (append_nil_r w), lstrip_all_space; done.
Qed.

(** White space around a text does not change what [strip] gives. *)
Lemma strip_padded w1 s w2 :
  Py.all_space w1 = true -> Py.all_space w2 = true ->
  Py.strip (w1 ++ s ++ w2)%string = Py.strip s.
Proof.
  intros H1 H2. unfold Py.strip. rewrite lstrip_all_space by done.
  induction s as [|c s IH]; simpl in *.
  - rewrite <- (append_nil_r w2), lstrip_all_space; done.
  - destruct (Py.isspace c) eqn:E; [done|].
    change (String c (s ++ w2)%string) with (String c s ++ w2)%string.
    by apply rstrip_app_all_space.
Qed.

(** *** [split] and [join] *)

Lemma split_absent c s : Py.has_char c s = false -> Py.split c s = [s].
Proof.
  induction s as [|d s IH]; simpl; [done|].
  intros [-> Hs]%orb_false_iff. by rewrite (IH Hs).
Qed.

Lemma split_app c a b :
  Py.has_char c a = false ->
  Py.split c (a ++ String c b)%string = a :: Py.split c b.
Proof.
  induction a as [|d a IH]; simpl.
  - intros _. by rewrite Ascii.eqb_refl.
  - intros [-> Ha]%orb_false_iff. by rewrite (IH Ha).
Qed.

(** A list of texts without comma, joined with commas, is split back into
    the same texts. *)
Lemma split_join (c : ascii) l :
  l <> [] -> Forall (fun s => Py.has_char c s = false) l ->
  Py.split c (Py.join (String c "") l) = l.
Proof.
  induction l as [|x l IH]; [done|]. intros _ Hall.
  apply Forall_cons in Hall as [Hx Hl].
  destruct l as [|y l]; simpl.
  - by apply split_absent.
  - rewrite (split_app c x _ Hx). f_equal. by apply IH.
Qed.

End Strings.

(** ** Dictionaries *)

Section Dict.

Context {V : Type}.
Implicit Types (d items : list (Api * V)) (k : Api) (v : V).

(** A new key goes to the end of the dictionary. *)
Lemma dict_set_new k v d : k ∉ map fst d -> dict_set k v d = d ++ [(k, v)].
Proof.
  induction d as [|[k' v'] d IH]; simpl; [done|].
  intros Hk. apply not_elem_of_cons in Hk as [Hne Hk].
  destruct (String.eqb_spec k' k) as [->|_]; [done|]. by rewrite IH.
Qed.

(** Items with distinct keys, none of them in the dictionary, are appended
    to it in their order. *)
Lemma dict_update_distinct d items :
  NoDup (map fst (d ++ items)) -> dict_update d items = d ++ items.
Proof.
  unfold dict_update. revert d.
  induction items as [|[k v] items IH]; intros d Hnd; simpl.
  - by rewrite app_nil_r.
  - rewrite map_app in Hnd. simpl in Hnd.
    apply NoDup_app in Hnd as (Hd & Hdisj & Hitems).
    rewrite dict_set_new.
    + rewrite IH, <- app_assoc; [done|].
      rewrite <- app_assoc, map_app. simpl. apply NoDup_app. done.
    + intros Hk. apply (Hdisj k Hk). apply list_elem_of_here.
Qed.

Lemma dict_get_set k v d : dict_get k (dict_set k v d) = Some v.
Proof.
  induction d as [|[k' v'] d IH]; simpl.
  - by rewrite String.eqb_refl.
  - destruct (String.eqb_spec k' k) as [->|Hne]; simpl.
    + by rewrite String.eqb_refl.
    + by destruct (String.eqb_spec k' k).
Qed.

Lemma dict_get_set_other k k' v d :
  k <> k' -> dict_get k' (dict_set k v d) = dict_get k' d.
Proof.
  intros Hne. induction d as [|[k0 v0] d IH]; simpl.
  - by destruct (String.eqb_spec k k').
  - destruct (String.eqb_spec k0 k) as [->|]; simpl.
    + by destruct (String.eqb_spec k k').
    + by rewrite IH.
Qed.

End Dict.

(** ** [parse_dependencies] and its description *)

Section Parse.

Variable Api_values : list string.
Variable api_providers : gmap Api (gmap string ProviderSpec).

Implicit Types (d : list (Api * ProviderSpec)) (entries : list string).

Local Abbreviation parse_dependency := (parse_dependency Api_values api_providers).
Local Abbreviation parse_entries := (parse_entries Api_values api_providers).
Local Abbreviation resolve_pair := (resolve_pair Api_values api_providers).
Local Abbreviation resolve_all := (resolve_all Api_values api_providers).

Lemma parse_dependency_described dep d :
  parse_dependency dep d
  = if Py.truthy (Py.strip dep)
    then match resolve_pair (Py.strip dep) with
         | inl e => inl e
         | inr kv => inr (dict_set kv.1 kv.2 d)
         end
    else inr d.
Proof.
  unfold parse_dependency, resolve_pair.
  destruct (Py.truthy (Py.strip dep)); simpl; [|done].
  destruct (Py.split "=" (Py.strip dep)) as [|a [|b [|]]]; try done.
  destruct (Api_of Api_values a) as [e|api]; [done|].
  destruct (api_providers !! api) as [ps|]; [|done].
  by destruct (ps !! Py.strip b).
Qed.

Lemma parse_entries_described entries d :
  parse_entries entries d
  = match resolve_all (List.filter Py.truthy (map Py.strip entries)) with
    | inl e => inl e
    | inr items => inr (dict_update d items)
    end.
Proof.
  revert d. induction entries as [|dep entries IH]; intros d; simpl; [done|].
  rewrite parse_dependency_described.
  destruct (Py.truthy (Py.strip dep)); simpl; [|apply IH].
  destruct (resolve_pair (Py.strip dep)) as [e|kv]; [done|].
  rewrite IH. by destruct (resolve_all _).
Qed.

(** The loop of [parse_dependencies] computes what the description says. *)
Lemma parse_dependencies_described dependencies :
  parse_dependencies Api_values api_providers dependencies
  = parse_as_described Api_values api_providers dependencies.
Proof. apply parse_entries_described. Qed.

(** *** Well-written entries *)

Lemma Api_of_member s : s ∈ Api_values -> Api_of Api_values s = inr s.
Proof. intros Hs. unfold Api_of. by case_decide. Qed.


Local Arguments Ascii.eqb : simpl never.
Local Arguments Py.isspace : simpl never.
Local Arguments String.append !_ _ /.

(** A blank entry is skipped. *)
Lemma parse_dependency_blank w d :
  Py.all_space w = true -> parse_dependency w d = inr d.
Proof.
  intros Hw. by rewrite parse_dependency_described, strip_all_space.
Qed.

(** The text after the equals sign, once the entry is trimmed. *)
Lemma rstrip_gap gap pid :
  Py.all_space gap = true -> Py.rstrip pid = pid ->
  Py.rstrip (gap ++ pid)%string
  = match pid with "" => "" | String _ _ => (gap ++ pid)%string end.
Proof.
  intros Hgap Hpid. destruct pid as [|c pid].
  - rewrite append_nil_r. by apply rstrip_all_space.
  - rewrite rstrip_app; [by rewrite Hpid|by rewrite Hpid].
Qed.

Lemma strip_written_pair p :
  well_written (Pair p) ->
  Py.strip (render (Pair p))
  = (wp_api p ++ String "=" (Py.rstrip (wp_gap p ++ wp_provider p)))%string.
Proof.
  destruct p as [lead api gap pid trail]; simpl.
  intros (Hlead & Hgap & Htrail & _ & _ & _ & _ & Hapi & _ & _).
  replace (lead ++ api ++ String "=" (gap ++ pid ++ trail))%string
    with (lead ++ (api ++ String "=" (gap ++ pid)) ++ trail)%string.
  2:{ f_equal. rewrite append_assoc. simpl. by rewrite append_assoc. }
  rewrite strip_padded by done. unfold Py.strip.
  rewrite lstrip_keep by done.
  rewrite rstrip_app; rewrite rstrip_cons by done; done.
Qed.

(** A well-written pair whose provider is registered is entered in the
    dictionary under its API. *)
Lemma parse_dependency_written p kv d :
  well_written (Pair p) ->
  registered Api_values api_providers p = Some kv ->
  parse_dependency (render (Pair p)) d = inr (dict_set kv.1 kv.2 d).
Proof.
  intros Hwf Hreg. rewrite parse_dependency_described.
  rewrite (strip_written_pair p Hwf).
  destruct p as [lead api gap pid trail]; simpl in *.
  destruct Hwf as (Hlead & Hgap & Htrail & _ & Hapi_eq & _ & Hpid_eq
                   & Hapi & Hpid_l & Hpid_r).
  unfold registered in Hreg; simpl in Hreg.
  destruct (decide (api ∈ Api_values)) as [Hin|]; [|done].
  destruct (api_providers !! api) as [ps|] eqn:Hps; [|done]; simpl in Hreg.
  destruct (ps !! pid) as [spec|] eqn:Hspec; [|done]; simpl in Hreg.
  injection Hreg as <-. simpl.
  assert (Py.truthy (api ++ String "=" (Py.rstrip (gap ++ pid))) = true)
    as -> by (by destruct api).
  unfold resolve_pair. rewrite (split_app "=" api _ Hapi_eq).
  rewrite (rstrip_gap gap pid Hgap Hpid_r).
  assert (Py.has_char "=" gap = false) as Hgap_eq
    by (by apply all_space_has_char).
  destruct pid as [|c pid].
  - simpl. rewrite (Api_of_member api Hin), Hps.
    change (Py.strip "") with EmptyString. by rewrite Hspec.
  - rewrite split_absent by (by rewrite has_char_app, Hgap_eq, Hpid_eq).
    rewrite (Api_of_member api Hin), Hps.
    assert (Py.strip (gap ++ String c pid) = String c pid) as ->.
    { unfold Py.strip. rewrite lstrip_all_space by done.
      by rewrite Hpid_l, Hpid_r. }
    by rewrite Hspec.
Qed.

Lemma render_no_comma x :
  well_written x -> Py.has_char "," (render x) = false.
Proof.
  destruct x as [w|[lead api gap pid trail]]; simpl.
  - intros Hw. by apply all_space_has_char.
  - intros (Hlead & Hgap & Htrail & Hapi & _ & Hpid & _).
    change (String "=" ?x) with ("=" ++ x)%string.
    rewrite !has_char_app, Hapi, Hpid.
    rewrite (all_space_has_char "," lead Hlead eq_refl).
    rewrite (all_space_has_char "," gap Hgap eq_refl).
    by rewrite (all_space_has_char "," trail Htrail eq_refl).
Qed.

(** The loop over a list of well-written entries whose pairs are registered
    enters the pairs in the dictionary in their order and skips the blank
    entries. *)
Lemma parse_entries_written (items : list written) d :
  Forall well_written items ->
  (forall p, p ∈ pairs_of items ->
             is_Some (registered Api_values api_providers p)) ->
  parse_entries (map render items) d
  = inr (dict_update d
           (omap (registered Api_values api_providers) (pairs_of items))).
Proof.
  revert d. induction items as [|x items IH]; intros d Hwf Hreg; [done|].
  apply Forall_cons in Hwf as [Hx Hwf]. simpl.
  destruct x as [w|p].
  - rewrite parse_dependency_blank by done. by apply IH.
  - destruct (Hreg p) as [kv Hkv]; [apply list_elem_of_here|].
    rewrite (parse_dependency_written p kv d Hx Hkv).
    change (pairs_of (Pair p :: items)) with (p :: pairs_of items).
    simpl. rewrite Hkv. simpl. apply IH; [done|].
    intros q Hq. apply Hreg. by apply list_elem_of_further.
Qed.

End Parse.

(** C4.  A dependency string is a list of entries separated by commas.
    When every entry is either blank or a pair [api=provider] with white
    space around the pair and around the provider identifier, the APIs are
    members of [Api], distinct from each other, and the providers are
    registered for them, [parse_dependencies] returns the mapping of each
    API to its provider in the order the pairs were listed: the blank
    entries are skipped and the white space is trimmed. *)
Theorem parse_dependencies_well_written :
  forall (Api_values : list string)
         (api_providers : gmap Api (gmap string ProviderSpec))
         (items : list written),
    Forall well_written items ->
    (forall p, p ∈ pairs_of items ->
               is_Some (registered Api_values api_providers p)) ->
    NoDup (map wp_api (pairs_of items)) ->
    parse_dependencies Api_values api_providers
      (Py.join "," (map render items))
    = inr (omap (registered Api_values api_providers) (pairs_of items))
    /\ map fst (omap (registered Api_values api_providers) (pairs_of items))
       = map wp_api (pairs_of items).
Proof.
  intros Api_values api_providers items Hwf Hreg Hnd.
  assert (map fst (omap (registered Api_values api_providers) (pairs_of items))
          = map wp_api (pairs_of items)) as Hkeys.
  { clear Hnd Hwf. induction (pairs_of items) as [|p ps IH]; [done|].
    destruct (Hreg p) as [kv Hkv]; [apply list_elem_of_here|].
    simpl. rewrite Hkv. simpl. f_equal.
    - unfold registered in Hkv. case_decide; [|done].
      destruct (api_providers !! wp_api p) as [m|]; [|done]; simpl in Hkv.
      destruct (m !! wp_provider p); [|done]. simpl in Hkv.
      by injection Hkv as <-.
    - apply IH. intros q Hq. apply Hreg. by apply list_elem_of_further. }
  split; [|done]. unfold parse_dependencies.
  destruct items as [|x items]; [done|].
  rewrite split_join.
  - rewrite parse_entries_written by done.
    rewrite dict_update_distinct; [done|].
    rewrite app_nil_l, Hkeys. exact Hnd.
  - done.
  - apply Forall_map. eapply Forall_impl; [exact Hwf|].
    intros y Hy. by apply render_no_comma.
Qed.

Lemma parse_dependencies_well_written_witness :
  parse_dependencies Ex.Api_values Ex.registry "a=p1,, b=p2 "
  = inr [("a", Ex.torch_provider); ("b", Ex.faiss_provider)]
  /\ map fst [("a", Ex.torch_provider); ("b", Ex.faiss_provider)]
     = ["a"; "b"].
Proof.
  apply (parse_dependencies_well_written Ex.Api_values Ex.registry Ex.entries).
  - repeat constructor.
  - intros p Hp. unfold Ex.entries in Hp. simpl in Hp.
    apply elem_of_cons in Hp as [->|Hp]; [by eexists|].
    apply elem_of_cons in Hp as [->|Hp]; [by eexists|].
    by apply elem_of_nil in Hp.
  - apply NoDup_cons. split; [|apply NoDup_singleton].
    intros [=]%list_elem_of_singleton.
Defined.

(** ** Entries that raise *)

Section ParseErrors.

Variable Api_values : list string.
Variable api_providers : gmap Api (gmap string ProviderSpec).

Implicit Types (d : list (Api * ProviderSpec)) (s : string).

Local Arguments Ascii.eqb : simpl never.
Local Arguments String.append !_ _ /.

Lemma split_nonempty c s : Py.split c s <> [].
Proof.
  induction s as [|a s IH]; simpl; [done|].
  destruct (Ascii.eqb a c); [done|]. by destruct (Py.split c s).
Qed.

Lemma split_app_sep c s t :
  Py.split c (s ++ String c t)%string = Py.split c s ++ Py.split c t.
Proof.
  induction s as [|a s IH]; simpl.
  - by rewrite Ascii.eqb_refl.
  - destruct (Ascii.eqb a c); [by rewrite IH|]. rewrite IH.
    pose proof (split_nonempty c s). by destruct (Py.split c s).
Qed.

Lemma parse_entries_app es1 es2 d :
  parse_entries Api_values api_providers (es1 ++ es2) d
  = match parse_entries Api_values api_providers es1 d with
    | inl e => inl e
    | inr d1 => parse_entries Api_values api_providers es2 d1
    end.
Proof.
  revert d. induction es1 as [|dep es1 IH]; intros d; simpl; [done|].
  by destruct (parse_dependency Api_values api_providers dep d).
Qed.

(** The loop ends at the first entry that raises: whatever follows the entry
    in the dependency string, the error is the one of that entry. *)
Lemma parse_dependencies_stops s1 bad s2 d1 e :
  Py.has_char "," bad = false ->
  parse_dependencies Api_values api_providers s1 = inr d1 ->
  parse_dependency Api_values api_providers bad d1 = inl e ->
  parse_dependencies Api_values api_providers
    (s1 ++ "," ++ bad ++ "," ++ s2)%string
  = inl e.
Proof.
  intros Hbad Hs1 Hraise. unfold parse_dependencies in *. simpl.
  rewrite split_app_sep, parse_entries_app, Hs1.
  rewrite (split_app "," bad s2 Hbad). simpl. by rewrite Hraise.
Qed.

(** A usage error is reported for no other entry than a pair whose API is
    a member of [Api] and in the registry, and whose provider is not
    registered for it. *)
Lemma parse_dependency_usage_error dep d :
  is_usage_error (parse_dependency Api_values api_providers dep d) = true ->
  exists (api : Api) provider providers,
    Py.split "=" (Py.strip dep) = [api; provider]
    /\ api ∈ Api_values
    /\ api_providers !! api = Some providers
    /\ providers !! Py.strip provider = None.
Proof.
  unfold parse_dependency.
  destruct (Py.truthy (Py.strip dep)); simpl; [|done].
  destruct (Py.split "=" (Py.strip dep)) as [|a [|b [|]]]; try done.
  unfold Api_of. case_decide; [|done].
  destruct (api_providers !! (a : Api)) as [ps|] eqn:Hps; [|done].
  destruct (ps !! Py.strip b) eqn:Hb; [done|].
  intros _. by exists a, b, ps.
Qed.

(** An unregistered provider for a known API is reported as a usage
    error. *)
Lemma parse_dependency_unknown_provider (api : Api) provider providers d :
  Py.has_char "=" api = false -> Py.has_char "=" provider = false ->
  Py.strip (api ++ "=" ++ provider)%string = (api ++ "=" ++ provider)%string ->
  api ∈ Api_values ->
  api_providers !! api = Some providers ->
  providers !! Py.strip provider = None ->
  parse_dependency Api_values api_providers (api ++ "=" ++ provider)%string d
  = inl (UsageError (not_available (Py.strip provider) api)).
Proof.
  intros Hapi Hprov Hstrip Hin Hps Hnone. unfold parse_dependency.
  rewrite Hstrip. simpl.
  assert (Py.truthy (api ++ String "=" provider) = true) as ->
    by (by destruct api).
  simpl. rewrite (split_app "=" api provider Hapi), (split_absent _ _ Hprov).
  unfold Api_of. case_decide; [|done]. by rewrite Hps, Hnone.
Qed.

End ParseErrors.

(** C5, at an input where the code departs from it.  The left side of the
    entry is not a member of [Api]: the constructor [Api] raises
    [ValueError], which is not a usage error; no entry with an unknown API is
    ever reported as a usage error. *)
Theorem parse_dependencies_unknown_api :
  ("bogus" ∉ Ex.Api_values)
  /\ parse_dependencies Ex.Api_values Ex.registry "bogus=p1"
     = inl (ValueError "'bogus' is not a valid Api")
  /\ is_usage_error
       (parse_dependencies Ex.Api_values Ex.registry "bogus=p1") = false
  /\ parse_dependencies Ex.Api_values Ex.registry "a=zz,bogus=p1"
     = inl (UsageError "Provider `zz` is not available for API `Api.a`").
Proof.
  split.
  - intros H. apply elem_of_cons in H as [[=]|H].
    apply elem_of_cons in H as [[=]|H]. by apply elem_of_nil in H.
  - repeat split; vm_compute; reflexivity.
Qed.

(** ** The command *)

Section CommandFacts.

Variable Api_values : list string.
Variable api_providers : gmap Api (gmap string ProviderSpec).
Variable BUILDS_BASE_DIR : string.
Variable random_choices : string -> nat -> list string.
Variable datetime_now : Z.
Variable resource_filename : string -> string -> string.
Variable run_with_pty : list string -> Z.

Local Abbreviation command :=
  (_run_api_build_command Api_values api_providers BUILDS_BASE_DIR
     random_choices datetime_now resource_filename run_with_pty).

(** The name of the package of an invocation. *)
Local Abbreviation package_name_for args :=
  (package_name_of (args_type args) (args_provider args)
     (Py.or_else (args_name args) (random_string random_choices))).

(** An invocation that has ended after creating directories only. *)
Local Ltac before_write :=
  left; simpl; rewrite <- ?app_assoc, drop_app_length; simpl;
  let e := fresh "e" in
  let He := fresh "He" in
  intros e He;
  repeat (apply elem_of_cons in He as [->|He]; [by eexists|]);
  by apply elem_of_nil in He.

Lemma events_of_app {A} (m : M A) w evs :
  trace (m w).2 = trace w ++ evs -> events_of m w = evs.
Proof. unfold events_of. intros ->. by rewrite drop_app_length. Qed.

(** An invocation either ends before the descriptor is written, having
    done nothing but create directories, or it resolves the root provider
    and the auxiliary providers, merges their dependencies, writes the
    descriptor, runs the build script once, and raises. *)
Lemma command_cases args w :
  (forall e, e ∈ events_of (command args) w -> exists path, e = MakeDirs path)
  \/ exists (api : Api) providers root provider_deps dependencies,
       Api_of Api_values (args_api args) = inr api
       /\ api_providers !! api = Some providers
       /\ providers !! args_provider args = Some root
       /\ parse_dependencies Api_values api_providers
            (Py.or_else (args_dependencies args) "") = inr provider_deps
       /\ (get_dependencies root provider_deps (heap w)).1 = inr dependencies
       /\ let build_dir := path_join BUILDS_BASE_DIR (args_api args) in
          let pn := package_name_for args in
          let argv :=
            build_argv resource_filename args pn dependencies in
          events_of (command args) w
          = [ MakeDirs BUILDS_BASE_DIR; MakeDirs build_dir;
              WriteFile (path_join build_dir (pn ++ ".yaml")%string)
                (PackageConfig_dict
                   (build_config datetime_now args api pn provider_deps));
              RunWithPty argv ]
            ++ (if (run_with_pty argv =? 0)%Z then []
                else [CPrint ("Failed to build target " ++ pn)%string "red"])
          /\ (command args w).1
             = inl (if (run_with_pty argv =? 0)%Z
                    then NameError "target_name" else AssertionError).
Proof.
  unfold _run_api_build_command, getitem, parser_error, on_heap, bind, emit,
    lift, ret, raise, events_of.
  destruct w as [σ tr]. simpl.
  destruct (Api_of Api_values (args_api args)) as [e|api] eqn:Hapi;
    [before_write|].
  case_decide as Hknown; [|before_write].
  destruct (api_providers !! api) as [providers|] eqn:Hproviders;
    [|before_write].
  simpl. case_decide as Hprovider; [|before_write].
  simpl.
  destruct (parse_dependencies Api_values api_providers
              (Py.or_else (args_dependencies args) ""))
    as [e|provider_deps] eqn:Hparse; [before_write|].
  destruct (providers !! args_provider args) as [root|] eqn:Hroot;
    [|before_write].
  simpl.
  destruct (get_dependencies root provider_deps σ)
    as [[e|dependencies] σ'] eqn:Hmerge; [before_write|].
  right. exists api, providers, root, provider_deps, dependencies.
  rewrite Hmerge. do 5 (split; [done|]). simpl.
  destruct (run_with_pty _ =? 0)%Z; simpl;
    rewrite <- ?app_assoc, drop_app_length; done.
Qed.

End CommandFacts.

(** C7.  Whenever an invocation writes the descriptor, the document holds
    the five fields, none omitted; its package name is the derived package
    name; for the container kind the image field is the package name and the
    environment field is [None], and for the environment kind the
    environment field is the package name and the image field is [None]. *)
Theorem descriptor_fields :
  forall (Api_values : list string)
         (api_providers : gmap Api (gmap string ProviderSpec))
         (BUILDS_BASE_DIR : string)
         (random_choices : string -> nat -> list string) (datetime_now : Z)
         (resource_filename : string -> string -> string)
         (run_with_pty : list string -> Z)
         (args : Namespace) (w : world)
         (path : string) (doc : list (string * field_value)),
    WriteFile path doc
    ∈ events_of
        (_run_api_build_command Api_values api_providers BUILDS_BASE_DIR
           random_choices datetime_now resource_filename run_with_pty args)
        w ->
    let pn :=
      package_name_of (args_type args) (args_provider args)
        (Py.or_else (args_name args) (random_string random_choices)) in
    map fst doc
    = ["built_at"; "package_name"; "docker_image"; "conda_env"; "providers"]
    /\ field "package_name" doc = Some (VStr pn)
    /\ (args_type args = BuildType_value container ->
        field "docker_image" doc = Some (VStr pn)
        /\ field "conda_env" doc = Some VNone)
    /\ (args_type args = BuildType_value conda_env ->
        field "docker_image" doc = Some VNone
        /\ field "conda_env" doc = Some (VStr pn)).
Proof.
  intros Api_values api_providers BASE random_choices now resource_filename
    run_with_pty args w path doc Hin pn.
  destruct (command_cases Api_values api_providers BASE random_choices now
              resource_filename run_with_pty args w)
    as [Hearly|(api & providers & root & provider_deps & dependencies
                & _ & _ & _ & _ & _ & Hevents & _)].
  - by destruct (Hearly _ Hin).
  - rewrite Hevents in Hin. clear Hevents.
    assert (doc = PackageConfig_dict
                    (build_config now args api pn provider_deps)) as ->.
    { apply elem_of_app in Hin as [Hin|Hin].
      - repeat (apply elem_of_cons in Hin as [Heq|Hin]; [by simplify_eq|]).
        by apply elem_of_nil in Hin.
      - destruct (run_with_pty _ =? 0)%Z.
        + by apply elem_of_nil in Hin.
        + by apply list_elem_of_singleton in Hin. }
    split; [done|]. split; [done|].
    split; intros Htype; simpl; rewrite Htype; done.
Qed.

Lemma descriptor_fields_witness :
  map fst
    [("built_at", VDatetime 0); ("package_name", VStr "env-p2-baz");
     ("docker_image", VNone); ("conda_env", VStr "env-p2-baz");
     ("providers", VProviders [(KeyStr "b", RefId "p2")])]
  = ["built_at"; "package_name"; "docker_image"; "conda_env"; "providers"]
  /\ field "package_name"
       [("built_at", VDatetime 0); ("package_name", VStr "env-p2-baz");
        ("docker_image", VNone); ("conda_env", VStr "env-p2-baz");
        ("providers", VProviders [(KeyStr "b", RefId "p2")])]
     = Some (VStr "env-p2-baz")
  /\ ("conda_env" = BuildType_value container ->
      field "docker_image"
        [("built_at", VDatetime 0); ("package_name", VStr "env-p2-baz");
         ("docker_image", VNone); ("conda_env", VStr "env-p2-baz");
         ("providers", VProviders [(KeyStr "b", RefId "p2")])]
      = Some (VStr "env-p2-baz")
      /\ field "conda_env"
           [("built_at", VDatetime 0); ("package_name", VStr "env-p2-baz");
            ("docker_image", VNone); ("conda_env", VStr "env-p2-baz");
            ("providers", VProviders [(KeyStr "b", RefId "p2")])]
         = Some VNone)
  /\ ("conda_env" = BuildType_value conda_env ->
      field "docker_image"
        [("built_at", VDatetime 0); ("package_name", VStr "env-p2-baz");
         ("docker_image", VNone); ("conda_env", VStr "env-p2-baz");
         ("providers", VProviders [(KeyStr "b", RefId "p2")])]
      = Some VNone
      /\ field "conda_env"
           [("built_at", VDatetime 0); ("package_name", VStr "env-p2-baz");
            ("docker_image", VNone); ("conda_env", VStr "env-p2-baz");
            ("providers", VProviders [(KeyStr "b", RefId "p2")])]
         = Some (VStr "env-p2-baz")).
Proof.
  apply (descriptor_fields Ex.Api_values Ex.registry "/builds"
           Ex.random_choices 0 Ex.resource_filename Ex.exit_one
           Ex.conda_args Ex.world0 "/builds/b/env-p2-baz.yaml").
  apply list_elem_of_In. vm_compute. right. right. left. reflexivity.
Defined.

(** C8.  Whenever an invocation runs the build script, the root provider
    and the auxiliary providers were resolved and merged, and the argument
    vector is, after the script: the API name, the package name, for the
    container kind the base image, and the packages of the merge result
    joined by single spaces.  The base image is the image of the merge
    result when it is non-empty and the default image ["python:3.10-slim"]
    when the merge gave none; the environment kind has no base image
    argument. *)
Theorem build_script_arguments :
  forall (Api_values : list string)
         (api_providers : gmap Api (gmap string ProviderSpec))
         (BUILDS_BASE_DIR : string)
         (random_choices : string -> nat -> list string) (datetime_now : Z)
         (resource_filename : string -> string -> string)
         (run_with_pty : list string -> Z)
         (args : Namespace) (w : world) (argv : list string),
    RunWithPty argv
    ∈ events_of
        (_run_api_build_command Api_values api_providers BUILDS_BASE_DIR
           random_choices datetime_now resource_filename run_with_pty args)
        w ->
    exists providers root provider_deps dependencies,
      api_providers !! args_api args = Some providers
      /\ providers !! args_provider args = Some root
      /\ parse_dependencies Api_values api_providers
           (Py.or_else (args_dependencies args) "") = inr provider_deps
      /\ (get_dependencies root provider_deps (heap w)).1 = inr dependencies
      /\ let pn :=
           package_name_of (args_type args) (args_provider args)
             (Py.or_else (args_name args) (random_string random_choices)) in
         (args_type args = BuildType_value container ->
          exists base,
            argv
            = [ resource_filename "llama_toolchain"
                  "distribution/build_container.sh";
                args_api args; pn; base;
                Py.join " " (pip_packages dependencies) ]
            /\ (forall image,
                  docker_image dependencies = Some image -> image <> "" ->
                  base = image)
            /\ (docker_image dependencies = None
                \/ docker_image dependencies = Some "" ->
                base = "python:3.10-slim"))
         /\ (args_type args = BuildType_value conda_env ->
             argv
             = [ resource_filename "llama_toolchain"
                   "distribution/build_conda_env.sh";
                 args_api args; pn;
                 Py.join " " (pip_packages dependencies) ]).
Proof.
  intros Api_values api_providers BASE random_choices now resource_filename
    run_with_pty args w argv Hin.
  destruct (command_cases Api_values api_providers BASE random_choices now
              resource_filename run_with_pty args w)
    as [Hearly|(api & providers & root & provider_deps & dependencies
                & Hapi & Hproviders & Hroot & Hparse & Hmerge & Hevents & _)].
  { by destruct (Hearly _ Hin). }
  assert (api = args_api args) as ->.
  { unfold Api_of in Hapi. case_decide; by simplify_eq. }
  exists providers, root, provider_deps, dependencies.
  do 4 (split; [done|]). intros pn.
  rewrite Hevents in Hin. clear Hevents.
  assert (argv = build_argv resource_filename args pn dependencies) as ->.
  { apply elem_of_app in Hin as [Hin|Hin].
    - repeat (apply elem_of_cons in Hin as [Heq|Hin]; [by simplify_eq|]).
      by apply elem_of_nil in Hin.
    - destruct (run_with_pty _ =? 0)%Z.
      + by apply elem_of_nil in Hin.
      + by apply list_elem_of_singleton in Hin. }
  unfold build_argv. split; intros Htype; rewrite Htype; simpl.
  - eexists. split; [reflexivity|]. split.
    + intros image -> Hne. by destruct image.
    + by intros [-> | ->].
  - done.
Qed.

Lemma build_script_arguments_witness :
  exists providers root provider_deps dependencies,
    Ex.registry !! "a" = Some providers
    /\ providers !! "p1" = Some root
    /\ parse_dependencies Ex.Api_values Ex.registry "b=p2" = inr provider_deps
    /\ (get_dependencies root provider_deps Ex.store).1 = inr dependencies
    /\ let pn := package_name_of "container" "p1" "baz" in
       ("container" = BuildType_value container ->
        exists base,
          [ "llama_toolchain/distribution/build_container.sh"; "a";
            "image-p1-baz"; "pytorch/pytorch"; "torch faiss" ]
          = [ Ex.resource_filename "llama_toolchain"
                "distribution/build_container.sh";
              "a"; pn; base; Py.join " " (pip_packages dependencies) ]
          /\ (forall image,
                docker_image dependencies = Some image -> image <> "" ->
                base = image)
          /\ (docker_image dependencies = None
              \/ docker_image dependencies = Some "" ->
              base = "python:3.10-slim"))
       /\ ("container" = BuildType_value conda_env ->
           [ "llama_toolchain/distribution/build_container.sh"; "a";
             "image-p1-baz"; "pytorch/pytorch"; "torch faiss" ]
           = [ Ex.resource_filename "llama_toolchain"
                 "distribution/build_conda_env.sh";
               "a"; pn; Py.join " " (pip_packages dependencies) ]).
Proof.
  apply (build_script_arguments Ex.Api_values Ex.registry "/builds"
           Ex.random_choices 0 Ex.resource_filename Ex.exit_zero
           Ex.container_args Ex.world0).
  apply list_elem_of_In. vm_compute. do 3 right. left. reflexivity.
Defined.

(** ** The exit status of the build script *)

(** When the build script exits with status zero, the command raises
    [NameError] for the name [target_name] and prints nothing. *)
Lemma command_exit_zero :
  forall (Api_values : list string)
         (api_providers : gmap Api (gmap string ProviderSpec))
         (BUILDS_BASE_DIR : string)
         (random_choices : string -> nat -> list string) (datetime_now : Z)
         (resource_filename : string -> string -> string)
         (run_with_pty : list string -> Z)
         (args : Namespace) (w : world) (argv : list string),
    let command :=
      _run_api_build_command Api_values api_providers BUILDS_BASE_DIR
        random_choices datetime_now resource_filename run_with_pty args in
    RunWithPty argv ∈ events_of command w ->
    run_with_pty argv = 0%Z ->
    (command w).1 = inl (NameError "target_name")
    /\ printed (events_of command w) = []
    /\ runs (events_of command w) = [argv].
Proof.
  intros Api_values api_providers BASE random_choices now resource_filename
    run_with_pty args w argv command Hin Hzero. subst command.
  destruct (command_cases Api_values api_providers BASE random_choices now
              resource_filename run_with_pty args w)
    as [Hearly|(api & providers & root & provider_deps & dependencies
                & _ & _ & _ & _ & _ & Hevents & Hresult)].
  { by destruct (Hearly _ Hin). }
  rewrite Hevents in Hin |- *. rewrite Hresult. clear Hevents Hresult.
  assert (argv
          = build_argv resource_filename args
              (package_name_of (args_type args) (args_provider args)
                 (Py.or_else (args_name args) (random_string random_choices)))
              dependencies) as <-.
  { apply elem_of_app in Hin as [Hin|Hin].
    - repeat (apply elem_of_cons in Hin as [Heq|Hin]; [by simplify_eq|]).
      by apply elem_of_nil in Hin.
    - destruct (run_with_pty _ =? 0)%Z.
      + by apply elem_of_nil in Hin.
      + by apply list_elem_of_singleton in Hin. }
  by rewrite Hzero.
Qed.

(** When the build script exits with another status, the command prints
    that it failed to build the target, with the package name, and raises
    [AssertionError]; the build script has run once. *)
Lemma command_exit_nonzero :
  forall (Api_values : list string)
         (api_providers : gmap Api (gmap string ProviderSpec))
         (BUILDS_BASE_DIR : string)
         (random_choices : string -> nat -> list string) (datetime_now : Z)
         (resource_filename : string -> string -> string)
         (run_with_pty : list string -> Z)
         (args : Namespace) (w : world) (argv : list string),
    let command :=
      _run_api_build_command Api_values api_providers BUILDS_BASE_DIR
        random_choices datetime_now resource_filename run_with_pty args in
    let pn :=
      package_name_of (args_type args) (args_provider args)
        (Py.or_else (args_name args) (random_string random_choices)) in
    RunWithPty argv ∈ events_of command w ->
    run_with_pty argv <> 0%Z ->
    (command w).1 = inl AssertionError
    /\ printed (events_of command w)
       = [(("Failed to build target " ++ pn)%string, "red")]
    /\ runs (events_of command w) = [argv].
Proof.
  intros Api_values api_providers BASE random_choices now resource_filename
    run_with_pty args w argv command pn Hin Hnonzero. subst command pn.
  destruct (command_cases Api_values api_providers BASE random_choices now
              resource_filename run_with_pty args w)
    as [Hearly|(api & providers & root & provider_deps & dependencies
                & _ & _ & _ & _ & _ & Hevents & Hresult)].
  { by destruct (Hearly _ Hin). }
  rewrite Hevents in Hin |- *. rewrite Hresult. clear Hevents Hresult.
  assert (argv
          = build_argv resource_filename args
              (package_name_of (args_type args) (args_provider args)
                 (Py.or_else (args_name args) (random_string random_choices)))
              dependencies) as <-.
  { apply elem_of_app in Hin as [Hin|Hin].
    - repeat (apply elem_of_cons in Hin as [Heq|Hin]; [by simplify_eq|]).
      by apply elem_of_nil in Hin.
    - destruct (run_with_pty _ =? 0)%Z.
      + by apply elem_of_nil in Hin.
      + by apply list_elem_of_singleton in Hin. }
  apply Z.eqb_neq in Hnonzero. by rewrite Hnonzero.
Qed.

(** C9, at an input where the code departs from it.  The build script exits
    with status zero: the command does not return, it raises [NameError]
    for the name [target_name], and neither the package name nor the path of
    the descriptor is printed.  With the exit status one the command prints
    the failure with the package name, raises, and has run the script
    once. *)
Theorem build_success_raises_NameError :
  (Ex.build Ex.exit_zero Ex.container_args Ex.world0).1
  = inl (NameError "target_name")
  /\ printed (events_of (Ex.build Ex.exit_zero Ex.container_args) Ex.world0)
     = []
  /\ runs (events_of (Ex.build Ex.exit_zero Ex.container_args) Ex.world0)
     = [[ "llama_toolchain/distribution/build_container.sh"; "a";
          "image-p1-baz"; "pytorch/pytorch"; "torch faiss" ]]
  /\ (Ex.build Ex.exit_one Ex.container_args Ex.world0).1
     = inl AssertionError
  /\ printed (events_of (Ex.build Ex.exit_one Ex.container_args) Ex.world0)
     = [("Failed to build target image-p1-baz", "red")]
  /\ runs (events_of (Ex.build Ex.exit_one Ex.container_args) Ex.world0)
     = [[ "llama_toolchain/distribution/build_container.sh"; "a";
          "image-p1-baz"; "pytorch/pytorch"; "torch faiss" ]].
Proof. repeat split; vm_compute; reflexivity. Qed.

(** ** The lemmas at concrete inputs *)

Lemma store_allocated (p : ProviderSpec) (l : loc) :
  package_list p = Some l -> Ex.store !! l <> None -> l ∈ dom Ex.store.
Proof. intros _ H. apply elem_of_dom. by destruct (Ex.store !! l). Qed.

(** The root [torch_provider] with two auxiliary providers that have lists
    of their own: the packages come out in the order of the dictionary. *)
Lemma get_dependencies_packages_separate_witness :
  pip_packages
    {| pip_packages := ["torch"; "faiss"; "httpx"];
       docker_image := Some "pytorch/pytorch" |}
  = derived_packages Ex.store Ex.torch_provider
    ++ concat
         (map (fun kv => derived_packages Ex.store kv.2)
            [("memory", Ex.faiss_provider); ("safety", Ex.httpx_adapter)]).
Proof.
  apply (get_dependencies_packages_separate Ex.torch_provider
           [("memory", Ex.faiss_provider); ("safety", Ex.httpx_adapter)]
           Ex.store).
  - intros l [= <-]. by apply (store_allocated Ex.torch_provider).
  - intros dep Hdep. simpl in Hdep.
    apply elem_of_cons in Hdep as [->|Hdep];
      [|apply elem_of_cons in Hdep as [->|Hdep];
        [|by apply elem_of_nil in Hdep]].
    + split.
      * intros l [= <-]. by apply (store_allocated Ex.faiss_provider).
      * by intros l [= <-].
    + split.
      * intros l [= <-]. by apply (store_allocated Ex.httpx_adapter).
      * by intros l [= <-].
  - vm_compute. reflexivity.
Defined.

(** The list of [faiss_provider] is not the root's: it is the same after
    the call as before. *)
Lemma get_dependencies_frame_witness :
  (get_dependencies Ex.torch_provider [("memory", Ex.faiss_provider)]
     Ex.store).2 !! 1
  = Ex.store !! 1.
Proof.
  apply (get_dependencies_frame Ex.torch_provider
           [("memory", Ex.faiss_provider)] Ex.store 1).
  - by apply (store_allocated Ex.faiss_provider).
  - by intros [=].
Defined.

(** The entry [a=zz] names an unregistered provider: the error is the same
    whatever follows the entry. *)
Lemma parse_dependencies_stops_witness :
  parse_dependencies Ex.Api_values Ex.registry "b=p2,a=zz,bogus=p1"
  = inl (UsageError "Provider `zz` is not available for API `Api.a`").
Proof.
  apply (parse_dependencies_stops Ex.Api_values Ex.registry
           "b=p2" "a=zz" "bogus=p1" [("b", Ex.faiss_provider)]);
    vm_compute; reflexivity.
Defined.

Lemma command_exit_zero_witness :
  (Ex.build Ex.exit_zero Ex.container_args Ex.world0).1
  = inl (NameError "target_name")
  /\ printed (events_of (Ex.build Ex.exit_zero Ex.container_args) Ex.world0)
     = []
  /\ runs (events_of (Ex.build Ex.exit_zero Ex.container_args) Ex.world0)
     = [[ "llama_toolchain/distribution/build_container.sh"; "a";
          "image-p1-baz"; "pytorch/pytorch"; "torch faiss" ]].
Proof.
  apply (command_exit_zero Ex.Api_values Ex.registry "/builds"
           Ex.random_choices 0 Ex.resource_filename Ex.exit_zero
           Ex.container_args Ex.world0).
  - apply list_elem_of_In. vm_compute. do 3 right. left. reflexivity.
  - reflexivity.
Defined.

Lemma command_exit_nonzero_witness :
  (Ex.build Ex.exit_one Ex.conda_args Ex.world0).1 = inl AssertionError
  /\ printed (events_of (Ex.build Ex.exit_one Ex.conda_args) Ex.world0)
     = [("Failed to build target env-p2-baz", "red")]
  /\ runs (events_of (Ex.build Ex.exit_one Ex.conda_args) Ex.world0)
     = [[ "llama_toolchain/distribution/build_conda_env.sh"; "b";
          "env-p2-baz"; "faiss" ]].
Proof.
  apply (command_exit_nonzero Ex.Api_values Ex.registry "/builds"
           Ex.random_choices 0 Ex.resource_filename Ex.exit_one
           Ex.conda_args Ex.world0).
  - apply list_elem_of_In. vm_compute. do 3 right. left. reflexivity.
  - discriminate.
Defined.

(** * Further properties of [get_dependencies] *)

Section Merge.

Implicit Types (σ : gmap loc (list string)) (p dep root : ProviderSpec).

Lemma _deps_list_at p σ l : list_at (_deps p σ).2 l = list_at σ l.
Proof.
  destruct p as [l' img|[a|]]; simpl; try done.
  destruct (decide (fresh (dom σ) = l)) as [<-|Hne].
  - rewrite list_at_insert_eq. unfold list_at.
    pose proof (is_fresh (dom σ)) as Hfresh.
    apply not_elem_of_dom in Hfresh. by rewrite Hfresh.
  - by rewrite list_at_insert_ne.
Qed.

Lemma extend_with_app l img deps1 deps2 σ :
  extend_with l img (deps1 ++ deps2) σ
  = match extend_with l img deps1 σ with
    | (inl e, σ1) => (inl e, σ1)
    | (inr _, σ1) => extend_with l img deps2 σ1
    end.
Proof.
  revert σ. induction deps1 as [|dep deps1 IH]; intros σ; simpl; [done|].
  destruct (_deps dep σ) as [[dl di] σ1].
  by destruct (Py.truthy_opt img && Py.truthy_opt di).
Qed.

Lemma extend_with_dom l img deps σ l' :
  l' ∈ dom σ -> l' ∈ dom (extend_with l img deps σ).2.
Proof.
  revert σ. induction deps as [|dep deps IH]; intros σ Hl'; simpl; [done|].
  destruct (_deps_frame dep σ l' Hl') as [_ Hdom].
  destruct (_deps dep σ) as [[dl di] σ1]; simpl in *.
  destruct (Py.truthy_opt img && Py.truthy_opt di); simpl; [done|].
  apply IH. unfold list_extend. rewrite dom_insert_L.
  by apply elem_of_union_r.
Qed.

(** The list the loop extends keeps what it held and grows at its end. *)
Lemma extend_with_grows l img deps σ :
  list_at σ l `prefix_of` list_at (extend_with l img deps σ).2 l.
Proof.
  revert σ. induction deps as [|dep deps IH]; intros σ; simpl; [done|].
  pose proof (_deps_list_at dep σ l) as Hsame.
  destruct (_deps dep σ) as [[dl di] σ1]; simpl in *.
  destruct (Py.truthy_opt img && Py.truthy_opt di); simpl.
  - by rewrite Hsame.
  - etrans; [|apply IH]. unfold list_extend.
    rewrite list_at_insert_eq, Hsame. by apply prefix_app_r.
Qed.

(** Whether the loop raises does not depend on the store. *)
Lemma extend_with_ok_store l l' img deps σ σ' :
  is_ok (extend_with l img deps σ).1 = is_ok (extend_with l' img deps σ').1.
Proof.
  pose proof (extend_with_raises l img deps σ) as H1.
  pose proof (extend_with_raises l' img deps σ') as H2.
  destruct (is_ok (extend_with l img deps σ).1),
    (is_ok (extend_with l' img deps σ').1); try done.
  - by apply H1, H2.
  - symmetry. by apply H2, H1.
Qed.

End Merge.

(** The root's list of packages is only ever extended: what it held before
    the call is a prefix of what it holds after it, whether the call returns
    or raises and whatever the auxiliary providers share with the root. *)
Lemma get_dependencies_root_list_grows :
  forall (root : ProviderSpec) (aux : list (Api * ProviderSpec))
         (σ : gmap loc (list string)) (l : loc),
    package_list root = Some l ->
    list_at σ l `prefix_of` list_at (get_dependencies root aux σ).2 l.
Proof.
  intros root aux σ l Hl.
  pose proof (get_dependencies_result root aux σ) as Hres.
  destruct (_deps_list root σ l Hl) as [Hlist Hstore].
  destruct (_deps root σ) as [[lr img] σ0]; simpl in *; subst lr σ0.
  pose proof (extend_with_grows l img (map snd aux) σ) as Hgrows.
  rewrite Hres; clear Hres.
  by destruct (extend_with l img (map snd aux) σ) as [[e|[]] σ1].
Qed.

Lemma get_dependencies_root_list_grows_witness :
  list_at Ex.store 1
  `prefix_of`
  list_at
    (get_dependencies Ex.faiss_provider
       [("inference", Ex.torch_provider); ("memory", Ex.faiss_provider)]
       Ex.store).2 1.
Proof.
  by apply (get_dependencies_root_list_grows Ex.faiss_provider
              [("inference", Ex.torch_provider); ("memory", Ex.faiss_provider)]
              Ex.store 1).
Defined.

(** A call that raises has already extended the root's list: when the
    first auxiliary provider with a non-empty image comes after auxiliary
    providers without image, the root's list holds, after the error, what
    it held before followed by the packages of those earlier providers. *)
Lemma get_dependencies_conflict_store :
  forall (root dep : ProviderSpec) (k : Api)
         (before after : list (Api * ProviderSpec))
         (σ : gmap loc (list string)) (l : loc),
    package_list root = Some l -> l ∈ dom σ ->
    nonempty_image (derived_image root) ->
    (forall q, q ∈ map snd before ->
               allocated σ q /\ separate root q
               /\ Py.truthy_opt (derived_image q) = false) ->
    nonempty_image (derived_image dep) ->
    (get_dependencies root (before ++ (k, dep) :: after) σ).1
    = inl (ValueError conflict_message)
    /\ list_at (get_dependencies root (before ++ (k, dep) :: after) σ).2 l
       = list_at σ l
         ++ concat (map (fun kv => derived_packages σ kv.2) before).
Proof.
  intros root dep k before after σ l Hl Hdom Hroot Hbefore Hdep.
  pose proof (get_dependencies_result root (before ++ (k, dep) :: after) σ)
    as Hres.
  pose proof (_deps_image root σ) as Himg.
  destruct (_deps_list root σ l Hl) as [Hlist Hstore].
  destruct (_deps root σ) as [[lr img] σ0]; simpl in *; subst lr σ0 img.
  rewrite Hres; clear Hres.
  rewrite map_app, extend_with_app. simpl.
  assert (is_ok (extend_with l (derived_image root) (map snd before) σ).1
          = true) as Hok.
  { destruct (is_ok _) eqn:E; [done|].
    apply extend_with_raises in E as (_ & q & Hq & Hqimg).
    destruct (Hbefore q Hq) as (_ & _ & Hnone).
    unfold nonempty_image in Hqimg. congruence. }
  assert (list_at (extend_with l (derived_image root) (map snd before) σ).2 l
          = list_at σ l
            ++ concat (map (fun kv => derived_packages σ kv.2) before))
    as Hlist.
  { rewrite extend_with_packages; [by rewrite map_map|done| |done].
    intros q Hq. destruct (Hbefore q Hq) as (Hq1 & Hq2 & _).
    split; [done|]. by apply Hq2. }
  destruct (extend_with l (derived_image root) (map snd before) σ)
    as [[e|[]] σ1]; simpl in *; [done|].
  pose proof (_deps_image dep σ1) as Hdimg.
  pose proof (_deps_list_at dep σ1 l) as Hsame.
  destruct (_deps dep σ1) as [[dl di] σ2]; simpl in *; subst di.
  unfold nonempty_image in Hroot, Hdep. rewrite Hroot, Hdep. simpl.
  by rewrite Hsame.
Qed.

Lemma get_dependencies_conflict_store_witness :
  (get_dependencies Ex.torch_provider
     ([("memory", Ex.faiss_provider)]
      ++ ("safety", Ex.httpx_image_provider) :: []) Ex.store).1
  = inl (ValueError conflict_message)
  /\ list_at
       (get_dependencies Ex.torch_provider
          ([("memory", Ex.faiss_provider)]
           ++ ("safety", Ex.httpx_image_provider) :: []) Ex.store).2 0
     = list_at Ex.store 0
       ++ concat
            (map (fun kv => derived_packages Ex.store kv.2)
               [("memory", Ex.faiss_provider)]).
Proof.
  apply (get_dependencies_conflict_store Ex.torch_provider
           Ex.httpx_image_provider "safety" [("memory", Ex.faiss_provider)]
           [] Ex.store 0); try done.
  intros q Hq. simpl in Hq. apply list_elem_of_singleton in Hq as ->.
  split; [|split; [|done]].
  - intros l [= <-]. by apply (store_allocated Ex.faiss_provider).
  - by intros l [= <-].
Defined.

(** The function is not idempotent on the store: a second call with the
    same arguments, in the store the first call left, returns the packages
    of the first result followed once more by the packages of the auxiliary
    providers. *)
Lemma get_dependencies_twice :
  forall (root : ProviderSpec) (aux : list (Api * ProviderSpec))
         (σ : gmap loc (list string)) (l : loc) (d1 : Dependencies),
    package_list root = Some l -> l ∈ dom σ ->
    (forall dep, dep ∈ map snd aux -> allocated σ dep /\ separate root dep) ->
    (get_dependencies root aux σ).1 = inr d1 ->
    exists d2,
      (get_dependencies root aux (get_dependencies root aux σ).2).1 = inr d2
      /\ pip_packages d2
         = pip_packages d1
           ++ concat (map (fun kv => derived_packages σ kv.2) aux)
      /\ docker_image d2 = docker_image d1.
Proof.
  intros root aux σ l d1 Hl Hdom Haux.
  pose proof (get_dependencies_result root aux σ) as R1.
  pose proof (_deps_image root σ) as I1.
  destruct (_deps_list root σ l Hl) as [L1 S1].
  destruct (_deps root σ) as [[l1 img1] τ1]; simpl in *. subst l1 τ1 img1.
  rewrite R1; clear R1.
  assert (forall q, q ∈ map snd aux ->
            allocated σ q /\ package_list q <> Some l) as Hsep.
  { intros q Hq. destruct (Haux q Hq) as [Hq1 Hq2]. split; [done|].
    by apply Hq2. }
  pose proof (extend_with_frame l (derived_image root) (map snd aux) σ)
    as Hframe.
  pose proof (fun l' => extend_with_dom l (derived_image root) (map snd aux)
                          σ l') as Hdoms.
  destruct (extend_with l (derived_image root) (map snd aux) σ)
    as [[e|[]] σ1] eqn:E1; simpl in *; [done|].
  intros [= <-]. simpl.
  pose proof (get_dependencies_result root aux σ1) as R2.
  pose proof (_deps_image root σ1) as I2.
  destruct (_deps_list root σ1 l Hl) as [L2 S2].
  destruct (_deps root σ1) as [[l2 img2] τ2]; simpl in *. subst l2 τ2 img2.
  rewrite R2; clear R2.
  pose proof (extend_with_ok_store l l (derived_image root) (map snd aux)
                σ σ1) as Hok.
  rewrite E1 in Hok. simpl in Hok.
  assert (forall q, q ∈ map snd aux ->
            allocated σ1 q /\ package_list q <> Some l) as Hsep1.
  { intros q Hq. destruct (Hsep q Hq) as [Hq1 Hq2]. split; [|done].
    intros lq Elq. by apply Hdoms, Hq1. }
  pose proof (extend_with_packages l (derived_image root) (map snd aux) σ1
                (Hdoms l Hdom) Hsep1) as Hpk.
  destruct (extend_with l (derived_image root) (map snd aux) σ1)
    as [[e|[]] σ2]; simpl in *; [done|].
  eexists. split; [reflexivity|]. simpl. split; [|done].
  rewrite (Hpk eq_refl), map_map. do 2 f_equal.
  apply map_ext_in. intros [k q] Hq%list_elem_of_In. simpl.
  assert (q ∈ map snd aux) as Hq' by (apply list_elem_of_fmap; by exists (k, q)).
  destruct (Hsep q Hq') as [Hq1 Hq2].
  unfold derived_packages. destruct (package_list q) as [lq|] eqn:Elq; [|done].
  unfold list_at. rewrite Hframe; [done|by apply Hq1|congruence].
Qed.

Lemma get_dependencies_twice_witness :
  exists d2,
    (get_dependencies Ex.torch_provider [("memory", Ex.faiss_provider)]
       (get_dependencies Ex.torch_provider [("memory", Ex.faiss_provider)]
          Ex.store).2).1 = inr d2
    /\ pip_packages d2
       = pip_packages
           {| pip_packages := ["torch"; "faiss"];
              docker_image := Some "pytorch/pytorch" |}
         ++ concat
              (map (fun kv => derived_packages Ex.store kv.2)
                 [("memory", Ex.faiss_provider)])
    /\ docker_image d2
       = docker_image
           {| pip_packages := ["torch"; "faiss"];
              docker_image := Some "pytorch/pytorch" |}.
Proof.
  apply (get_dependencies_twice Ex.torch_provider
           [("memory", Ex.faiss_provider)] Ex.store 0); try done.
  intros q Hq. simpl in Hq. apply list_elem_of_singleton in Hq as ->.
  split.
  - intros l [= <-]. by apply (store_allocated Ex.faiss_provider).
  - by intros l [= <-].
Defined.

(** * Further properties of [parse_dependencies] *)

Section DictOrder.

Context {V : Type}.
Implicit Types (d items : list (Api * V)) (k : Api) (v : V).

Lemma dict_set_keys k v d :
  map fst (dict_set k v d)
  = if bool_decide (k ∈ map fst d) then map fst d else map fst d ++ [k].
Proof.
  induction d as [|[k' v'] d IH]; simpl; [done|].
  destruct (String.eqb_spec k' k) as [->|Hne]; simpl.
  - rewrite bool_decide_eq_true_2; [done|apply list_elem_of_here].
  - rewrite IH. destruct (bool_decide (k ∈ map fst d)) eqn:E.
    + apply bool_decide_eq_true_1 in E.
      rewrite bool_decide_eq_true_2; [done|by apply list_elem_of_further].
    + apply bool_decide_eq_false_1 in E.
      rewrite bool_decide_eq_false_2; [done|].
      intros [?|?]%elem_of_cons; congruence.
Qed.

Lemma dict_set_NoDup k v d :
  NoDup (map fst d) -> NoDup (map fst (dict_set k v d)).
Proof.
  intros Hd. rewrite dict_set_keys. case_bool_decide as Hk; [done|].
  apply NoDup_app. split; [done|]. split; [|apply NoDup_singleton].
  intros x Hx ->%list_elem_of_singleton. done.
Qed.

Lemma dict_set_Forall (P : Api * V -> Prop) k v d :
  Forall P d -> P (k, v) -> (forall k' v', P (k', v') -> k' = k -> P (k', v)) ->
  Forall P (dict_set k v d).
Proof.
  intros Hd Hkv Hsame. induction Hd as [|[k' v'] d Hx Hd IH]; simpl.
  - by apply Forall_singleton.
  - destruct (String.eqb_spec k' k) as [->|Hne].
    + apply Forall_cons. split; [done|done].
    + apply Forall_cons. by split.
Qed.

Lemma first_seen_ext (s1 s2 l : list Api) :
  (forall x, x ∈ s1 <-> x ∈ s2) -> first_seen s1 l = first_seen s2 l.
Proof.
  revert s1 s2. induction l as [|k l IH]; intros s1 s2 Hs; simpl; [done|].
  rewrite (bool_decide_ext (k ∈ s1) (k ∈ s2)) by apply Hs.
  destruct (bool_decide (k ∈ s2)); [by apply IH|].
  f_equal. apply IH. intros x. rewrite !elem_of_cons. by rewrite Hs.
Qed.

(** The keys of a dictionary that has received items are its keys followed
    by the new keys in the order they are first listed. *)
Lemma dict_update_keys d items :
  map fst (dict_update d items)
  = map fst d ++ first_seen (map fst d) (map fst items).
Proof.
  unfold dict_update. revert d.
  induction items as [|[k v] items IH]; intros d; simpl.
  - by rewrite app_nil_r.
  - rewrite IH, dict_set_keys. case_bool_decide as Hk; [done|].
    rewrite <- app_assoc. simpl. do 2 f_equal. apply first_seen_ext.
    intros x. rewrite elem_of_app, !elem_of_cons, elem_of_nil. tauto.
Qed.

Lemma dict_get_app k d1 d2 :
  dict_get k (d1 ++ d2)
  = match dict_get k d1 with Some v => Some v | None => dict_get k d2 end.
Proof.
  induction d1 as [|[k' v'] d1 IH]; simpl; [done|].
  by destruct (String.eqb k' k).
Qed.

(** The value of a key in a dictionary that has received items is the value
    of the last item listed for the key, and the former value when no item
    is listed for it. *)
Lemma dict_update_get k d items :
  dict_get k (dict_update d items)
  = match dict_get k (rev items) with
    | Some v => Some v
    | None => dict_get k d
    end.
Proof.
  unfold dict_update. revert d.
  induction items as [|[k' v'] items IH]; intros d; simpl; [done|].
  rewrite IH, dict_get_app. destruct (dict_get k (rev items)); [done|].
  simpl. destruct (String.eqb_spec k' k) as [->|Hne].
  - apply dict_get_set.
  - by apply dict_get_set_other.
Qed.

End DictOrder.

Section ParseFacts.

Variable Api_values : list string.
Variable api_providers : gmap Api (gmap string ProviderSpec).

Implicit Types (d deps : list (Api * ProviderSpec)) (s dep : string).

Local Arguments Ascii.eqb : simpl never.
Local Arguments Py.isspace : simpl never.
Local Arguments String.append !_ _ /.

Local Abbreviation from_registry :=
  (from_registry Api_values api_providers).

Lemma parse_dependency_invariant dep d d' :
  parse_dependency Api_values api_providers dep d = inr d' ->
  NoDup (map fst d) -> Forall from_registry d ->
  NoDup (map fst d') /\ Forall from_registry d'.
Proof.
  unfold parse_dependency.
  destruct (Py.truthy (Py.strip dep)); simpl; [|by intros [= <-]].
  destruct (Py.split "=" (Py.strip dep)) as [|a [|b [|]]]; try done.
  unfold Api_of. case_decide as Ha; [|done].
  destruct (api_providers !! a) as [ps|] eqn:Hps; [|done].
  destruct (ps !! Py.strip b) as [spec|] eqn:Hspec; [|done].
  intros [= <-] Hnd Hall. split; [by apply dict_set_NoDup|].
  apply dict_set_Forall; [done| |].
  - split; [done|]. by exists ps, (Py.strip b).
  - intros k' v' _ ->. split; [done|]. by exists ps, (Py.strip b).
Qed.

Lemma parse_entries_invariant entries d d' :
  parse_entries Api_values api_providers entries d = inr d' ->
  NoDup (map fst d) -> Forall from_registry d ->
  NoDup (map fst d') /\ Forall from_registry d'.
Proof.
  revert d. induction entries as [|dep entries IH]; intros d; simpl.
  - by intros [= <-].
  - destruct (parse_dependency Api_values api_providers dep d) as [e|d1]
      eqn:Hdep; [done|].
    intros Hrest Hnd Hall.
    destruct (parse_dependency_invariant dep d d1 Hdep Hnd Hall).
    by apply (IH d1).
Qed.

End ParseFacts.

(** Whatever the dependency string, the mapping [parse_dependencies]
    returns has each API once, every API is a member of [Api], and every
    provider is one the registry has for its API. *)
Lemma parse_dependencies_sound :
  forall (Api_values : list string)
         (api_providers : gmap Api (gmap string ProviderSpec))
         (dependencies : string) (deps : list (Api * ProviderSpec)),
    parse_dependencies Api_values api_providers dependencies = inr deps ->
    NoDup (map fst deps)
    /\ Forall (from_registry Api_values api_providers) deps.
Proof.
  intros Api_values api_providers dependencies deps Hparse.
  apply (parse_entries_invariant Api_values api_providers
           (Py.split "," dependencies) [] deps Hparse).
  - apply NoDup_nil_2.
  - apply Forall_nil_2.
Qed.

Lemma parse_dependencies_sound_witness :
  NoDup (map fst [("a", Ex.torch_provider); ("b", Ex.faiss_provider)])
  /\ Forall (from_registry Ex.Api_values Ex.registry)
       [("a", Ex.torch_provider); ("b", Ex.faiss_provider)].
Proof.
  by apply (parse_dependencies_sound Ex.Api_values Ex.registry
              "a=p1,, b=p2 ").
Defined.

(** With an API listed more than once, the mapping has the API at the
    place it was first listed and with the provider that was listed last
    for it: the keys of the mapping are the APIs of the entries in the order
    of their first listing, and the value of a key is the provider of the
    last entry for it. *)
Lemma parse_dependencies_bindings :
  forall (Api_values : list string)
         (api_providers : gmap Api (gmap string ProviderSpec))
         (dependencies : string) (deps : list (Api * ProviderSpec)),
    parse_dependencies Api_values api_providers dependencies = inr deps ->
    exists items,
      resolve_all Api_values api_providers (listed_entries dependencies)
      = inr items
      /\ map fst deps = first_listed (map fst items)
      /\ forall k, dict_get k deps = dict_get k (rev items).
Proof.
  intros Api_values api_providers dependencies deps.
  unfold parse_dependencies. rewrite parse_entries_described.
  fold (listed_entries dependencies).
  destruct (resolve_all Api_values api_providers
              (listed_entries dependencies)) as [e|items]; [done|].
  intros [= <-]. exists items. split; [done|]. split.
  - by rewrite dict_update_keys.
  - intros k. rewrite dict_update_get. by destruct (dict_get k (rev items)).
Qed.

Lemma parse_dependencies_bindings_witness :
  exists items,
    resolve_all Ex.Api_values Ex2.registry
      (listed_entries "b=p2,a=p1,b=p3") = inr items
    /\ map fst [("b", Ex.httpx_adapter); ("a", Ex.torch_provider)]
       = first_listed (map fst items)
    /\ forall k,
         dict_get k [("b", Ex.httpx_adapter); ("a", Ex.torch_provider)]
         = dict_get k (rev items).
Proof.
  by apply (parse_dependencies_bindings Ex.Api_values Ex2.registry
              "b=p2,a=p1,b=p3").
Defined.

Section ParseEdges.

Variable Api_values : list string.
Variable api_providers : gmap Api (gmap string ProviderSpec).

Implicit Types (d deps : list (Api * ProviderSpec)) (s dep : string).

Local Arguments Ascii.eqb : simpl never.
Local Arguments Py.isspace : simpl never.
Local Arguments String.append !_ _ /.

Lemma split_blank_list s :
  blank_list s = true ->
  Forall (fun e => Py.all_space e = true) (Py.split "," s).
Proof.
  induction s as [|c s IH]; simpl.
  - intros _. by apply Forall_singleton.
  - intros [Hc Hs]%andb_true_iff. specialize (IH Hs).
    destruct (Ascii.eqb c ",") eqn:E.
    + apply Forall_cons. by split.
    + rewrite orb_false_r in Hc.
      pose proof (split_nonempty "," s) as Hne.
      destruct (Py.split "," s) as [|h t]; [done|].
      apply Forall_cons in IH as [Hh Ht].
      apply Forall_cons. split; [|done]. simpl. by rewrite Hc, Hh.
Qed.

Lemma parse_entries_blank entries d :
  Forall (fun e => Py.all_space e = true) entries ->
  parse_entries Api_values api_providers entries d = inr d.
Proof.
  induction 1 as [|e entries He _ IH]; simpl; [done|].
  by rewrite parse_dependency_blank.
Qed.

Lemma split_length c s : length (Py.split c s) = S (count_char c s).
Proof.
  induction s as [|a s IH]; simpl; [done|].
  destruct (Ascii.eqb a c); simpl; [by rewrite IH|].
  pose proof (split_nonempty c s) as Hne.
  destruct (Py.split c s) as [|h t]; [done|]. by rewrite <- IH.
Qed.

Lemma parse_entries_usage_error entries d :
  is_usage_error (parse_entries Api_values api_providers entries d) = true ->
  exists dep (api : Api) provider providers,
    dep ∈ entries
    /\ Py.split "=" (Py.strip dep) = [api; provider]
    /\ api ∈ Api_values
    /\ api_providers !! api = Some providers
    /\ providers !! Py.strip provider = None.
Proof.
  revert d. induction entries as [|dep entries IH]; intros d; simpl; [done|].
  destruct (parse_dependency Api_values api_providers dep d) as [e|d1]
    eqn:Hdep.
  - intros He.
    destruct (parse_dependency_usage_error Api_values api_providers dep d)
      as (api & provider & providers & H);
      [by rewrite Hdep|].
    exists dep, api, provider, providers. split; [apply list_elem_of_here|done].
  - intros Hrest.
    destruct (IH d1 Hrest) as (dep' & api & provider & providers & Hin & H).
    exists dep', api, provider, providers.
    split; [by apply list_elem_of_further|done].
Qed.

End ParseEdges.

(** A dependency string of white space and commas only, the empty string
    among them, gives the empty mapping. *)
Lemma parse_dependencies_blank_list :
  forall (Api_values : list string)
         (api_providers : gmap Api (gmap string ProviderSpec))
         (dependencies : string),
    blank_list dependencies = true ->
    parse_dependencies Api_values api_providers dependencies = inr [].
Proof.
  intros Api_values api_providers dependencies Hblank.
  apply parse_entries_blank. by apply split_blank_list.
Qed.

Lemma parse_dependencies_blank_list_witness :
  parse_dependencies Ex.Api_values Ex.registry " , ,, " = inr [].
Proof.
  by apply (parse_dependencies_blank_list Ex.Api_values Ex.registry " , ,, ").
Defined.

(** An entry that is not blank and does not hold exactly one equals sign
    raises [ValueError], when the pair is unpacked. *)
Lemma parse_dependencies_malformed_pair :
  forall (Api_values : list string)
         (api_providers : gmap Api (gmap string ProviderSpec))
         (dependencies : string),
    Py.has_char "," dependencies = false ->
    Py.strip dependencies <> "" ->
    count_char "=" (Py.strip dependencies) <> 1 ->
    exists msg,
      parse_dependencies Api_values api_providers dependencies
      = inl (ValueError msg).
Proof.
  intros Api_values api_providers dependencies Hcomma Hblank Hcount.
  unfold parse_dependencies. rewrite (split_absent _ _ Hcomma). simpl.
  unfold parse_dependency.
  assert (Py.truthy (Py.strip dependencies) = true) as ->
    by (by destruct (Py.strip dependencies)).
  simpl.
  pose proof (split_length "=" (Py.strip dependencies)) as Hlen.
  destruct (Py.split "=" (Py.strip dependencies)) as [|a [|b [|]]];
    simpl in Hlen; try by eexists.
  lia.
Qed.

Lemma parse_dependencies_malformed_pair_witness :
  exists msg,
    parse_dependencies Ex.Api_values Ex.registry "a=p1=p2"
    = inl (ValueError msg).
Proof.
  by apply (parse_dependencies_malformed_pair Ex.Api_values Ex.registry
              "a=p1=p2").
Defined.



(** [parse_dependencies] reports a usage error for nothing but an entry
    whose API is a member of [Api] and in the registry and whose provider,
    once trimmed, is not registered for that API. *)
Lemma parse_dependencies_usage_error :
  forall (Api_values : list string)
         (api_providers : gmap Api (gmap string ProviderSpec))
         (dependencies : string),
    is_usage_error
      (parse_dependencies Api_values api_providers dependencies) = true ->
    exists dep (api : Api) provider providers,
      dep ∈ Py.split "," dependencies
      /\ Py.split "=" (Py.strip dep) = [api; provider]
      /\ api ∈ Api_values
      /\ api_providers !! api = Some providers
      /\ providers !! Py.strip provider = None.
Proof.
  intros Api_values api_providers dependencies.
  apply parse_entries_usage_error.
Qed.

Lemma parse_dependencies_usage_error_witness :
  exists dep (api : Api) provider providers,
    dep ∈ Py.split "," "b=p2, a= zz "
    /\ Py.split "=" (Py.strip dep) = [api; provider]
    /\ api ∈ Ex.Api_values
    /\ Ex.registry !! api = Some providers
    /\ providers !! Py.strip provider = None.
Proof.
  by apply (parse_dependencies_usage_error Ex.Api_values Ex.registry
              "b=p2, a= zz ").
Defined.

(** * Further properties of the command *)

Section CommandEdges.

Variable Api_values : list string.
Variable api_providers : gmap Api (gmap string ProviderSpec).
Variable BUILDS_BASE_DIR : string.
Variable random_choices : string -> nat -> list string.
Variable datetime_now : Z.
Variable resource_filename : string -> string -> string.
Variable run_with_pty : list string -> Z.

Local Abbreviation command :=
  (_run_api_build_command Api_values api_providers BUILDS_BASE_DIR
     random_choices datetime_now resource_filename run_with_pty).

Local Ltac run_command :=
  unfold _run_api_build_command, getitem, parser_error, on_heap, bind, emit,
    lift, ret, raise.

(** The command never returns: every path through it ends in an
    exception. *)
Lemma command_raises args w : is_ok (command args w).1 = false.
Proof.
  run_command. destruct w as [σ tr]. simpl.
  destruct (Api_of Api_values (args_api args)) as [e|api]; [done|].
  case_decide; [|done].
  destruct (api_providers !! api) as [providers|]; [|done].
  simpl. case_decide; [|done]. simpl.
  destruct (parse_dependencies Api_values api_providers _)
    as [e|provider_deps]; [done|].
  destruct (providers !! args_provider args) as [root|]; [|done]. simpl.
  destruct (get_dependencies root provider_deps σ) as [[e|dependencies] σ'];
    [done|].
  by destruct (run_with_pty _ =? 0)%Z.
Qed.

(** A provider that is not registered for the API is reported as a usage
    error after the base directory has been made: nothing else is made,
    written or run, and the store is as it was. *)
Lemma command_unknown_provider args w (api : Api) providers :
  Api_of Api_values (args_api args) = inr api ->
  api_providers !! api = Some providers ->
  providers !! args_provider args = None ->
  command args w
  = (inl (UsageError (not_available (args_provider args) api)),
     {| heap := heap w; trace := trace w ++ [MakeDirs BUILDS_BASE_DIR] |}).
Proof.
  intros Hapi Hproviders Hnone. run_command. destruct w as [σ tr]. simpl.
  rewrite Hapi. case_decide as Hknown.
  - rewrite Hproviders. simpl. case_decide as Hsome; [|done].
    rewrite Hnone in Hsome. by destruct Hsome.
  - rewrite Hproviders in Hknown. by destruct Hknown.
Qed.

(** An error of [parse_dependencies] or of [get_dependencies] leaves the
    command before the descriptor is written: the two directories have been
    made and nothing has been written or run. *)
Lemma command_aborts args w (api : Api) providers root e :
  Api_of Api_values (args_api args) = inr api ->
  api_providers !! api = Some providers ->
  providers !! args_provider args = Some root ->
  parse_dependencies Api_values api_providers
    (Py.or_else (args_dependencies args) "") = inl e
  \/ (exists provider_deps,
        parse_dependencies Api_values api_providers
          (Py.or_else (args_dependencies args) "") = inr provider_deps
        /\ (get_dependencies root provider_deps (heap w)).1 = inl e) ->
  (command args w).1 = inl e
  /\ events_of (command args) w
     = [MakeDirs BUILDS_BASE_DIR;
        MakeDirs (path_join BUILDS_BASE_DIR (args_api args))].
Proof.
  intros Hapi Hproviders Hroot Herr. unfold events_of. run_command.
  destruct w as [σ tr]. simpl in *.
  rewrite Hapi. case_decide as Hknown.
  2:{ rewrite Hproviders in Hknown. by destruct Hknown. }
  rewrite Hproviders. simpl. case_decide as Hsome.
  2:{ rewrite Hroot in Hsome. by destruct Hsome. }
  simpl. destruct Herr as [Hparse|(provider_deps & Hparse & Hmerge)];
    rewrite Hparse.
  - simpl. by rewrite <- app_assoc, drop_app_length.
  - rewrite Hroot. simpl.
    destruct (get_dependencies root provider_deps σ) as [[e'|d] σ'];
      simpl in *; [|done].
    injection Hmerge as ->. by rewrite <- app_assoc, drop_app_length.
Qed.

End CommandEdges.

Lemma command_unknown_provider_witness :
  Ex.build Ex.exit_zero
    {| args_api := "a"; args_provider := "zz"; args_dependencies := None;
       args_name := None; args_type := "container" |} Ex.world0
  = (inl (UsageError (not_available "zz" "a")),
     {| heap := heap Ex.world0;
        trace := trace Ex.world0 ++ [MakeDirs "/builds"] |}).
Proof.
  by apply (command_unknown_provider Ex.Api_values Ex.registry "/builds"
              Ex.random_choices 0 Ex.resource_filename Ex.exit_zero
              {| args_api := "a"; args_provider := "zz";
                 args_dependencies := None; args_name := None;
                 args_type := "container" |}
              Ex.world0 "a" (<["p1" := Ex.torch_provider]> ∅)).
Defined.

Lemma command_aborts_witness :
  (Ex.build Ex.exit_zero
     {| args_api := "a"; args_provider := "p1";
        args_dependencies := Some "bogus=p1"; args_name := None;
        args_type := "container" |} Ex.world0).1
  = inl (ValueError "'bogus' is not a valid Api")
  /\ events_of
       (Ex.build Ex.exit_zero
          {| args_api := "a"; args_provider := "p1";
             args_dependencies := Some "bogus=p1"; args_name := None;
             args_type := "container" |}) Ex.world0
     = [MakeDirs "/builds"; MakeDirs (path_join "/builds" "a")].
Proof.
  apply (command_aborts Ex.Api_values Ex.registry "/builds"
           Ex.random_choices 0 Ex.resource_filename Ex.exit_zero
           {| args_api := "a"; args_provider := "p1";
              args_dependencies := Some "bogus=p1"; args_name := None;
              args_type := "container" |}
           Ex.world0 "a" (<["p1" := Ex.torch_provider]> ∅)
           Ex.torch_provider); try done.
  by left.
Defined.

(** The descriptor is written once, at
    [BUILDS_BASE_DIR/<api>/<package name>.yaml], after the two directories
    have been made and right before the build script is run; after the run
    the command does nothing but print. *)
Lemma descriptor_written_before_run :
  forall (Api_values : list string)
         (api_providers : gmap Api (gmap string ProviderSpec))
         (BUILDS_BASE_DIR : string)
         (random_choices : string -> nat -> list string) (datetime_now : Z)
         (resource_filename : string -> string -> string)
         (run_with_pty : list string -> Z)
         (args : Namespace) (w : world)
         (path : string) (doc : list (string * field_value)),
    let command :=
      _run_api_build_command Api_values api_providers BUILDS_BASE_DIR
        random_choices datetime_now resource_filename run_with_pty args in
    let build_dir := path_join BUILDS_BASE_DIR (args_api args) in
    let pn :=
      package_name_of (args_type args) (args_provider args)
        (Py.or_else (args_name args) (random_string random_choices)) in
    WriteFile path doc ∈ events_of command w ->
    path = path_join build_dir (pn ++ ".yaml")%string
    /\ exists argv rest,
         events_of command w
         = [MakeDirs BUILDS_BASE_DIR; MakeDirs build_dir;
            WriteFile path doc; RunWithPty argv] ++ rest
         /\ (rest = [] \/ exists text color, rest = [CPrint text color]).
Proof.
  intros Api_values api_providers BASE random_choices now resource_filename
    run_with_pty args w path doc command build_dir pn Hin.
  subst command build_dir pn.
  destruct (command_cases Api_values api_providers BASE random_choices now
              resource_filename run_with_pty args w)
    as [Hearly|(api & providers & root & provider_deps & dependencies
                & _ & _ & _ & _ & _ & Hevents & _)].
  { by destruct (Hearly _ Hin). }
  rewrite Hevents in Hin |- *. clear Hevents.
  assert (WriteFile path doc
          = WriteFile
              (path_join (path_join BASE (args_api args))
                 (package_name_of (args_type args) (args_provider args)
                    (Py.or_else (args_name args)
                       (random_string random_choices)) ++ ".yaml")%string)
              (PackageConfig_dict
                 (build_config now args api
                    (package_name_of (args_type args) (args_provider args)
                       (Py.or_else (args_name args)
                          (random_string random_choices)))
                    provider_deps))) as Heq.
  { apply elem_of_app in Hin as [Hin|Hin].
    - repeat (apply elem_of_cons in Hin as [Heq|Hin]; [by simplify_eq|]).
      by apply elem_of_nil in Hin.
    - destruct (run_with_pty _ =? 0)%Z.
      + by apply elem_of_nil in Hin.
      + by apply list_elem_of_singleton in Hin. }
  injection Heq as -> ->. split; [done|].
  eexists _, _. split; [reflexivity|].
  destruct (run_with_pty _ =? 0)%Z; [by left|right; by eexists _, _].
Qed.

Lemma descriptor_written_before_run_witness :
  "/builds/b/env-p2-baz.yaml"
  = path_join (path_join "/builds" (args_api Ex.conda_args))
      (package_name_of (args_type Ex.conda_args)
         (args_provider Ex.conda_args)
         (Py.or_else (args_name Ex.conda_args)
            (random_string Ex.random_choices)) ++ ".yaml")%string
  /\ exists argv rest,
       events_of (Ex.build Ex.exit_one Ex.conda_args) Ex.world0
       = [MakeDirs "/builds";
          MakeDirs (path_join "/builds" (args_api Ex.conda_args));
          WriteFile "/builds/b/env-p2-baz.yaml"
            [("built_at", VDatetime 0); ("package_name", VStr "env-p2-baz");
             ("docker_image", VNone); ("conda_env", VStr "env-p2-baz");
             ("providers", VProviders [(KeyStr "b", RefId "p2")])];
          RunWithPty argv] ++ rest
       /\ (rest = [] \/ exists text color, rest = [CPrint text color]).
Proof.
  apply (descriptor_written_before_run Ex.Api_values Ex.registry "/builds"
           Ex.random_choices 0 Ex.resource_filename Ex.exit_one
           Ex.conda_args Ex.world0).
  apply list_elem_of_In. vm_compute. right. right. left. reflexivity.
Defined.



(** * Names *)

Section Names.

Implicit Types (s t : string) (c : ascii) (l : list string).

Local Arguments Ascii.eqb : simpl never.
Local Arguments String.append !_ _ /.

Lemma join_empty_cons s l :
  Py.join "" (s :: l) = (s ++ Py.join "" l)%string.
Proof. destruct l; simpl; [by rewrite append_nil_r|done]. Qed.

Lemma join_drawn population l :
  Forall (drawn_from population) l ->
  String.length (Py.join "" l) = length l
  /\ forall c, Py.has_char c (Py.join "" l) = true ->
               Py.has_char c population = true.
Proof.
  induction 1 as [|s l (d & -> & Hd) _ [IHlen IHchars]]; [done|].
  rewrite join_empty_cons. simpl. split; [by rewrite IHlen|].
  intros c [Hc|Hc]%orb_true_iff; [|by apply IHchars].
  by apply Ascii.eqb_eq in Hc as <-.
Qed.

(** A prefix without colon is left in front by the replacement. *)
Lemma replace_cc_prefix c s :
  Ascii.eqb ":" c = false ->
  Py.replace "::" "-" (String c s) = String c (Py.replace "::" "-" s).
Proof. intros Hc. apply replace_cc_keep. by rewrite Hc. Qed.

End Names.

(** When [random.choices] gives eight one-character strings drawn from the
    alphabet, the generated name has eight characters, every one of them an
    ASCII letter or a digit; in particular it holds no colon. *)
Lemma random_string_alphanumeric :
  forall random_choices : string -> nat -> list string,
    length (random_choices alphabet 8) = 8 ->
    Forall (drawn_from alphabet) (random_choices alphabet 8) ->
    String.length (random_string random_choices) = 8
    /\ (forall c, Py.has_char c (random_string random_choices) = true ->
                  Py.has_char c alphabet = true)
    /\ Py.has_char ":" (random_string random_choices) = false.
Proof.
  intros random_choices Hlen Hdrawn. unfold random_string.
  destruct (join_drawn alphabet _ Hdrawn) as [Hl Hc].
  split; [by rewrite Hl|]. split; [done|].
  destruct (Py.has_char ":" (Py.join "" (random_choices alphabet 8))) eqn:E;
    [|done].
  by apply Hc in E.
Qed.

Lemma random_string_alphanumeric_witness :
  String.length (random_string Ex.random_choices) = 8
  /\ (forall c, Py.has_char c (random_string Ex.random_choices) = true ->
                Py.has_char c alphabet = true)
  /\ Py.has_char ":" (random_string Ex.random_choices) = false.
Proof.
  apply (random_string_alphanumeric Ex.random_choices); [done|].
  repeat (apply Forall_cons; split; [by exists "x"%char|]).
  apply Forall_nil_2.
Defined.

(** The name of a package starts with ["image-"] when the type is
    ["container"] and with ["env-"] for every other type, whatever the
    provider identifier and the name hold. *)
Lemma package_name_prefix :
  forall type provider name : string,
    (type = BuildType_value container ->
     Py.startswith "image-" (package_name_of type provider name) = true)
    /\ (type <> BuildType_value container ->
        Py.startswith "env-" (package_name_of type provider name) = true).
Proof.
  intros type provider name. unfold package_name_of.
  split; intros Htype.
  - rewrite Htype, String.eqb_refl.
    change ("image-" ++ ?x)%string
      with (String "i" (String "m" (String "a" (String "g" (String "e"
              (String "-" x)))))).
    by rewrite !replace_cc_prefix.
  - apply String.eqb_neq in Htype. rewrite Htype.
    change ("env-" ++ ?x)%string
      with (String "e" (String "n" (String "v" (String "-" x)))).
    by rewrite !replace_cc_prefix.
Qed.

(** * An unregistered provider *)

Section UnknownProvider.

Variable Api_values : list string.
Variable api_providers : gmap Api (gmap string ProviderSpec).

Local Arguments Ascii.eqb : simpl never.
Local Arguments Py.isspace : simpl never.
Local Arguments String.append !_ _ /.

Lemma parse_dependency_unregistered p providers d :
  well_written (Pair p) ->
  wp_api p ∈ Api_values ->
  api_providers !! wp_api p = Some providers ->
  providers !! wp_provider p = None ->
  parse_dependency Api_values api_providers (render (Pair p)) d
  = inl (UsageError (not_available (wp_provider p) (wp_api p))).
Proof.
  intros Hwf Hin Hps Hnone. rewrite parse_dependency_described.
  rewrite (strip_written_pair p Hwf).
  destruct p as [lead api gap pid trail]; simpl in *.
  destruct Hwf as (Hlead & Hgap & Htrail & _ & Hapi_eq & _ & Hpid_eq
                   & Hapi & Hpid_l & Hpid_r).
  assert (Py.truthy (api ++ String "=" (Py.rstrip (gap ++ pid))) = true)
    as -> by (by destruct api).
  unfold resolve_pair. rewrite (split_app "=" api _ Hapi_eq).
  rewrite (rstrip_gap gap pid Hgap Hpid_r).
  assert (Py.has_char "=" gap = false) as Hgap_eq
    by (by apply all_space_has_char).
  destruct pid as [|c pid].
  - simpl. rewrite (Api_of_member Api_values api Hin), Hps.
    change (Py.strip "") with EmptyString. by rewrite Hnone.
  - rewrite split_absent by (by rewrite has_char_app, Hgap_eq, Hpid_eq).
    rewrite (Api_of_member Api_values api Hin), Hps.
    assert (Py.strip (gap ++ String c pid) = String c pid) as ->.
    { unfold Py.strip. rewrite lstrip_all_space by done.
      by rewrite Hpid_l, Hpid_r. }
    by rewrite Hnone.
Qed.

End UnknownProvider.

(** A pair whose API is a member of [Api] and in the registry and whose
    provider is not registered for it is reported as a usage error that
    names the trimmed provider identifier and the API, whatever white space
    surrounds the pair and the provider identifier. *)
Lemma parse_dependencies_unknown_provider :
  forall (Api_values : list string)
         (api_providers : gmap Api (gmap string ProviderSpec))
         (p : written_pair) (providers : gmap string ProviderSpec),
    well_written (Pair p) ->
    wp_api p ∈ Api_values ->
    api_providers !! wp_api p = Some providers ->
    providers !! wp_provider p = None ->
    parse_dependencies Api_values api_providers (render (Pair p))
    = inl (UsageError (not_available (wp_provider p) (wp_api p))).
Proof.
  intros Api_values api_providers p providers Hwf Hin Hps Hnone.
  unfold parse_dependencies.
  rewrite (split_absent _ _ (render_no_comma (Pair p) Hwf)).
  cbn [parse_entries].
  by rewrite (parse_dependency_unregistered Api_values api_providers p
                providers [] Hwf Hin Hps Hnone).
Qed.

Lemma parse_dependencies_unknown_provider_witness :
  parse_dependencies Ex.Api_values Ex.registry " a= zz "
  = inl (UsageError (not_available "zz" "a")).
Proof.
  apply (parse_dependencies_unknown_provider Ex.Api_values Ex.registry
           {| wp_lead := " "; wp_api := "a"; wp_gap := " ";
              wp_provider := "zz"; wp_trail := " " |}
           (<["p1" := Ex.torch_provider]> ∅)); try done.
  apply list_elem_of_here.
Defined.
